(** * filter_tracker: the record store of [filter_tracker.py]

    A shallow embedding of the data-access layer of the air filter change
    tracker.  The program keeps one SQLite table, [filters], and every
    operation is one or a few SQL statements run against it.  The table
    is embedded as the list of its rows in b-tree (rowid) order together
    with the AUTOINCREMENT counter; every statement of the source becomes
    a function on that state.

    Conventions of the embedding:
    - a TEXT value is a [string] of bytes, compared as SQLite's BINARY
      collation does (bytewise, [String.compare]);
    - a Python argument that may be [None] is an [option string];
    - an [ORDER BY] is a stable sort of the rows in scan (rowid) order,
      so rows that compare equal on the sort key stay in rowid order;
      this is what SQLite does for an [ORDER BY ... LIMIT 1] over a
      table scan (it keeps the first of the rows with the best key),
      and the only result below that depends on it is the one about a
      tie on change_date;
    - AUTOINCREMENT hands out one more than the largest rowid ever
      used, and the insert fails once the last rowid has been used;
    - printing is returned as a [message]; a raised exception as
      [Raised];
    - an id argument is a Python [int], a [Z]; the binding hands it to
      a statement only if it fits an SQLite INTEGER (signed 64 bits)
      and raises [OverflowError] otherwise;
    - a string argument stands for a TEXT value;
    - the database file is a table, or missing, or (after an export
      that was pointed at it) a CSV file; where a file name lands when
      it is opened is an input of a run, like the clock;
    - failures of the storage medium itself (I/O errors, a full disk)
      are outside the model. *)

From Stdlib Require Import ZArith List String Ascii Bool Lia Zify ZifyNat.
From Stdlib Require Import Sorting.Sorted Sorting.Permutation.
From Stdlib Require Import Structures.OrdersEx.
Import ListNotations.

Local Open Scope string_scope.
Local Open Scope list_scope.
Local Open Scope Z_scope.

(** ** Python values *)

Module Py.

(** An argument of the command line layer: [None] or a [str]. *)
Definition arg := option string.

(** Truth value of [None] or a [str], as [if x:] tests it. *)
Definition truthy (a : arg) : bool :=
  match a with
  | None => false
  | Some s => negb (String.eqb s "")
  end.

(** The part of [datetime.now()] that ["%Y-%m-%d"] reads. *)
Record datetime := mkDatetime { year : nat; month : nat; day : nat }.

Definition digit (n : nat) : ascii := ascii_of_nat (48 + Nat.modulo n 10).

Definition pad2 (n : nat) : string :=
  String (digit (Nat.div n 10)) (String (digit n) EmptyString).

Definition pad4 (n : nat) : string :=
  String (digit (Nat.div n 1000)) (String (digit (Nat.div n 100)) (pad2 n)).

(** [now.strftime("%Y-%m-%d")]: year, month and day in four, two and two
    digits; for the year this is what [%Y] prints from year 1000 on. *)
Definition strftime_Ymd (now : datetime) : string :=
  (pad4 (year now) ++ "-" ++ pad2 (month now) ++ "-" ++ pad2 (day now))%string.

End Py.

(** ** The table *)

(** One row of [filters]; the columns are NOT NULL, so each holds a value. *)
Record row := mkRow {
  id : Z;
  location : string;
  size : string;
  product_number : string;
  change_date : string
}.

(** The database: the rows of [filters] in rowid order, and the largest
    rowid ever handed out (the table's entry in [sqlite_sequence]). *)
Record store := mkStore {
  rows : list row;
  seq : Z
}.

(** What [CREATE TABLE IF NOT EXISTS] leaves on a fresh database. *)
Definition empty_store : store := mkStore [] 0.

(** [initialize_database]: creates the table when the database has none,
    and changes nothing otherwise. *)
Definition initialize_database (db : option store) : store :=
  match db with
  | None => empty_store
  | Some s => s
  end.

(** ** SQL building blocks *)

Module Sql.

Section Ordering.
Context {A : Type}.
Variable cmp : A -> A -> comparison.

(** [x] may come before [y] in the output. *)
Definition before (x y : A) : bool :=
  match cmp x y with
  | Gt => false
  | _ => true
  end.

Fixpoint place (x : A) (sorted : list A) : list A :=
  match sorted with
  | [] => [x]
  | y :: rest => if before x y then x :: sorted else y :: place x rest
  end.

(** [ORDER BY]: a stable sort of the scanned rows. *)
Fixpoint order_by (l : list A) : list A :=
  match l with
  | [] => []
  | x :: rest => place x (order_by rest)
  end.
End Ordering.

(** [LIMIT 1] then [fetchone()]. *)
Definition fetchone {A : Type} (l : list A) : option A := hd_error (firstn 1 l).

(** The largest rowid of a signed 64-bit INTEGER PRIMARY KEY. *)
Definition max_rowid : Z := 9223372036854775807.

(** The least value of an SQLite INTEGER. *)
Definition min_integer : Z := -9223372036854775808.

(** A Python [int] that the binding can hand to a statement as a
    parameter: one that fits an SQLite INTEGER. *)
Definition binds (n : Z) : bool := (min_integer <=? n) && (n <=? max_rowid).

(** [ORDER BY location ASC, change_date DESC] *)
Definition by_location_asc_change_date_desc (r1 r2 : row) : comparison :=
  match String.compare (location r1) (location r2) with
  | Eq => String.compare (change_date r2) (change_date r1)
  | c => c
  end.

(** [ORDER BY change_date DESC] *)
Definition by_change_date_desc (r1 r2 : row) : comparison :=
  String.compare (change_date r2) (change_date r1).

(** [ORDER BY id DESC] *)
Definition by_id_desc (r1 r2 : row) : comparison :=
  Z.compare (id r2) (id r1).

(** [WHERE location = ?]; a NULL parameter matches no row. *)
Definition location_is (l : Py.arg) (r : row) : bool :=
  match l with
  | None => false
  | Some s => String.eqb (location r) s
  end.

(** [WHERE id = ?] *)
Definition id_is (i : Z) (r : row) : bool := Z.eqb (id r) i.

(** [WHERE location = ? AND change_date = ?] *)
Definition location_and_date_are (l d : string) (r : row) : bool :=
  String.eqb (location r) l && String.eqb (change_date r) d.

(** [MAX] of two TEXT values. *)
Definition max_text (a b : string) : string :=
  match String.compare a b with
  | Lt => b
  | _ => a
  end.

(** One step of the aggregation [SELECT location, MAX(change_date) ...
    GROUP BY location]: the groups are kept in ascending order of
    [location], and a row either opens its group or raises its maximum. *)
Fixpoint group_step (l d : string) (groups : list (string * string))
  : list (string * string) :=
  match groups with
  | [] => [(l, d)]
  | (l', d') :: rest =>
      match String.compare l l' with
      | Lt => (l, d) :: groups
      | Eq => (l', max_text d' d) :: rest
      | Gt => (l', d') :: group_step l d rest
      end
  end.

(** [SELECT location, MAX(change_date) FROM filters GROUP BY location] *)
Definition select_location_max_date (t : list row) : list (string * string) :=
  fold_left (fun groups r => group_step (location r) (change_date r) groups) t [].

End Sql.

(** ** Outcomes *)

Inductive exception :=
| IntegrityError      (* NOT NULL constraint failed *)
| OperationalError    (* SQLITE_FULL: no rowid left *)
| TypeError           (* subscript of None *)
| CsvError            (* a row that is None *)
| OverflowError       (* Python int too large to convert to SQLite INTEGER *)
| OSError             (* open() of the export file failed *)
| DatabaseError       (* file is not a database *)
| SystemExit.         (* parse_args rejected the command line *)

Inductive message :=
| Recorded (location change_date : string)
| LastChanged (location : Py.arg) (change_date product_number : string)
| NoRecordForLocation (location : Py.arg)
| Deleted (record_id : Z)
| NoRecordWithId (record_id : Z)
| Updated (record_id : Z)
| NoFieldsProvided
| NoFilterChangeRecords
| NoRecordsFound
| NoRecordsToExport
| Listing (records : list row)
| LastChanges (lines : list (string * string * string))
| ExportedAll
| ExportedLast.

Inductive outcome :=
| Printed (m : message)
| Raised (e : exception).

(** ** The operations *)

(** [add_filter_change] *)
Definition add_filter_change (now : Py.datetime)
    (location size product_number change_date : Py.arg) (db : store)
  : store * outcome :=
  let change_date :=
    if Py.truthy change_date then change_date
    else Some (Py.strftime_Ymd now) in
  if Sql.max_rowid <=? seq db then (db, Raised OperationalError)
  else
    match location, size, product_number, change_date with
    | Some l, Some s, Some p, Some d =>
        let new_id := seq db + 1 in
        (mkStore (rows db ++ [mkRow new_id l s p d]) new_id,
         Printed (Recorded l d))
    | _, _, _, _ => (db, Raised IntegrityError)
    end.

(** The row [check_last_filter_change] reads: the first one of
    [WHERE location = ? ORDER BY change_date DESC LIMIT 1]. *)
Definition last_filter_change_row (location : Py.arg) (db : store) : option row :=
  Sql.fetchone
    (Sql.order_by Sql.by_change_date_desc
       (filter (Sql.location_is location) (rows db))).

(** [check_last_filter_change]; the statement selects [change_date] and
    [product_number]. *)
Definition check_last_filter_change (location : Py.arg) (db : store) : message :=
  match option_map (fun r => (change_date r, product_number r))
          (last_filter_change_row location db) with
  | Some (d, p) => LastChanged location d p
  | None => NoRecordForLocation location
  end.

(** The [records] that [list_all_filter_changes] fetches. *)
Definition list_all_records (db : store) : list row :=
  Sql.order_by Sql.by_location_asc_change_date_desc (rows db).

(** [list_all_filter_changes] *)
Definition list_all_filter_changes (db : store) : message :=
  match list_all_records db with
  | [] => NoFilterChangeRecords
  | records => Listing records
  end.

(** [SELECT * FROM filters WHERE id = ?] then [fetchone()]. *)
Definition select_by_id (record_id : Z) (db : store) : option row :=
  hd_error (filter (Sql.id_is record_id) (rows db)).

(** [delete_filter_record]; the first statement takes [record_id] as its
    parameter, and the binding raises when it does not fit. *)
Definition delete_filter_record (record_id : Z) (db : store) : store * outcome :=
  if Sql.binds record_id then
    match select_by_id record_id db with
    | Some _ =>
        (mkStore (filter (fun r => negb (Sql.id_is record_id r)) (rows db)) (seq db),
         Printed (Deleted record_id))
    | None => (db, Printed (NoRecordWithId record_id))
    end
  else (db, Raised OverflowError).

(** The [SET] clause built by [edit_filter_record]: a column is assigned
    exactly when its argument is truthy. *)
Definition assign (a : Py.arg) (old : string) : string :=
  match a with
  | Some s => if Py.truthy a then s else old
  | None => old
  end.

Definition set_columns (location size product_number change_date : Py.arg)
    (r : row) : row :=
  match r with
  | mkRow i l s p d =>
      mkRow i (assign location l) (assign size s)
            (assign product_number p) (assign change_date d)
  end.

(** [updates] is non-empty. *)
Definition any_update (location size product_number change_date : Py.arg) : bool :=
  Py.truthy location || Py.truthy size
  || Py.truthy product_number || Py.truthy change_date.

(** [edit_filter_record]; the first statement takes [record_id] as its
    parameter, and the binding raises when it does not fit. *)
Definition edit_filter_record (record_id : Z)
    (location size product_number change_date : Py.arg) (db : store)
  : store * outcome :=
  if Sql.binds record_id then
    match select_by_id record_id db with
    | None => (db, Printed (NoRecordWithId record_id))
    | Some _ =>
        if any_update location size product_number change_date then
          (mkStore
             (map (fun r =>
                     if Sql.id_is record_id r
                     then set_columns location size product_number change_date r
                     else r)
                  (rows db))
             (seq db),
           Printed (Updated record_id))
        else (db, Printed NoFieldsProvided)
    end
  else (db, Raised OverflowError).

(** *** CSV export *)

(** A cell handed to [csv.writer]. *)
Inductive cell :=
| IntCell (n : Z)
| TextCell (s : string).

Definition csv := list (list cell).

(** [["ID", "Location", "Size", "Product Number", "Change Date"]] *)
Definition header : list cell :=
  [TextCell "ID"; TextCell "Location"; TextCell "Size";
   TextCell "Product Number"; TextCell "Change Date"].

(** The tuple [(id, location, size, product_number, change_date)]. *)
Definition cells (r : row) : list cell :=
  [IntCell (id r); TextCell (location r); TextCell (size r);
   TextCell (product_number r); TextCell (change_date r)].

(** The [records] that [export_all_to_csv] fetches. *)
Definition export_all_records (db : store) : list row :=
  Sql.order_by Sql.by_location_asc_change_date_desc (rows db).

(** [export_all_to_csv]: the file written, if any, and the message. *)
Definition export_all_to_csv (db : store) : option csv * message :=
  match export_all_records db with
  | [] => (None, NoRecordsToExport)
  | records => (Some (header :: map cells records), ExportedAll)
  end.

(** [WHERE location = ? AND change_date = ? ORDER BY id DESC LIMIT 1] *)
Definition newest_of (l d : string) (t : list row) : option row :=
  Sql.fetchone
    (Sql.order_by Sql.by_id_desc (filter (Sql.location_and_date_are l d) t)).

(** The [results] that [export_last_changes_to_csv] collects: one
    [fetchone()] per group. *)
Definition export_last_results (db : store) : list (option row) :=
  map (fun g => newest_of (fst g) (snd g) (rows db))
      (Sql.select_location_max_date (rows db)).

(** [writer.writerows]: stops at a row that is [None]. *)
Fixpoint writerows (results : list (option row)) (file : csv)
  : csv * option exception :=
  match results with
  | [] => (file, None)
  | Some r :: rest => writerows rest (file ++ [cells r])
  | None :: _ => (file, Some CsvError)
  end.

(** [export_last_changes_to_csv] *)
Definition export_last_changes_to_csv (db : store) : option csv * outcome :=
  match export_last_results db with
  | [] => (None, Printed NoRecordsToExport)
  | results =>
      match writerows results [header] with
      | (file, None) => (Some file, Printed ExportedLast)
      | (file, Some e) => (Some file, Raised e)
      end
  end.

(** The loop of [print_last_change_per_location]: one line per group,
    until a [fetchone()] comes back empty. *)
Fixpoint last_change_lines (t : list row) (last_changes : list (string * string))
  : list (string * string * string) * option exception :=
  match last_changes with
  | [] => ([], None)
  | (l, d) :: rest =>
      match option_map product_number (newest_of l d t) with
      | None => ([], Some TypeError)
      | Some p =>
          let (lines, e) := last_change_lines t rest in
          ((l, d, p) :: lines, e)
      end
  end.

(** [print_last_change_per_location]: what is printed, and the exception
    that ended the loop, if any. *)
Definition print_last_change_per_location (db : store)
  : message * option exception :=
  match Sql.select_location_max_date (rows db) with
  | [] => (NoRecordsFound, None)
  | last_changes =>
      let (lines, e) := last_change_lines (rows db) last_changes in
      (LastChanges lines, e)
  end.

(** ** Histories *)

(** The calls that write to the table. *)
Inductive op :=
| Create (now : Py.datetime) (location size product_number change_date : Py.arg)
| Update (record_id : Z) (location size product_number change_date : Py.arg)
| Delete (record_id : Z).

Definition run_op (o : op) (db : store) : store :=
  match o with
  | Create now l s p d => fst (add_filter_change now l s p d db)
  | Update i l s p d => fst (edit_filter_record i l s p d db)
  | Delete i => fst (delete_filter_record i db)
  end.

(** The calls of [ops], first to last, on [db]. *)
Definition run_ops (ops : list op) (db : store) : store :=
  fold_left (fun s o => run_op o s) ops db.

(** A state the program can bring a fresh database to. *)
Definition reachable (db : store) : Prop :=
  exists ops, db = run_ops ops (initialize_database None).

(** ** Small runs *)

Module Runs.

Definition jan1 : Py.datetime := Py.mkDatetime 2024 1 1.

Definition kitchen2 : store :=
  run_ops [Create jan1 (Some "Kitchen") (Some "20x20") (Some "ABC123") (Some "2024-01-01");
           Create jan1 (Some "Kitchen") (Some "20x20") (Some "ABC999") (Some "2024-01-01")]
          empty_store.

(** One record with an empty required field. *)
Definition blank : store :=
  run_ops [Create jan1 (Some "") (Some "20x20") (Some "ABC123") None]
          (initialize_database None).

(** A record dated after the day of the next call. *)
Definition postdated : store :=
  run_ops [Create jan1 (Some "Kitchen") (Some "20x20") (Some "ABC123") (Some "2099-01-01")]
          (initialize_database None).

End Runs.

(** ** The command line *)

(** What [parser.parse_args()] hands to the dispatch: the subcommand with
    its arguments.  [--location], [--size], [--product_number], [--id]
    and [--filename] are required where they are declared, so they are
    present; the other options are [None] when left out.  [NoCommand] is
    a command line without a subcommand ([args.command] is [None]). *)
Inductive command :=
| CmdAdd (location size product_number : string) (change_date : Py.arg)
| CmdCheck (location : string)
| CmdList
| CmdLastChanges
| CmdDelete (record_id : Z)
| CmdEdit (record_id : Z) (location size product_number change_date : Py.arg)
| CmdExportAll (filename : string)
| CmdExportLast (filename : string)
| NoCommand.

(** What one run of the program leaves behind besides the database: the
    message printed, the exception that ended the run, the file written. *)
Record report := mkReport {
  printed : option message;
  raised : option exception;
  written : option (string * csv)
}.

Definition report_of (o : outcome) : report :=
  match o with
  | Printed m => mkReport (Some m) None None
  | Raised e => mkReport None (Some e) None
  end.

(** The database file, [filters.db]: not there yet, holding the table,
    or holding the CSV that an export wrote over it. *)
Inductive dbfile :=
| NoFile
| TableFile (db : store)
| CsvFile (content : csv).

Definition table_of (f : dbfile) : option store :=
  match f with
  | TableFile db => Some db
  | _ => None
  end.

(** The database file that holds a given table, if any. *)
Definition file_of (db : option store) : dbfile :=
  match db with
  | Some s => TableFile s
  | None => NoFile
  end.

(** Where [open(filename, 'w')] lands on a run: it fails, it opens the
    database file itself, or it opens another file. *)
Inductive target :=
| CannotOpen
| DatabaseFile
| OtherFile.

(** The [with open(filename, mode='w', ...)] block of the two exports and
    the print after it.  The connection is closed by then, so a file
    name that lands on the database file replaces the table by the CSV. *)
Definition write_csv (opens : string -> target) (filename : string)
    (content : csv) (o : outcome) (db : store) : dbfile * report :=
  match opens filename with
  | CannotOpen => (TableFile db, mkReport None (Some OSError) None)
  | DatabaseFile =>
      (CsvFile content,
       mkReport (printed (report_of o)) (raised (report_of o))
                (Some (filename, content)))
  | OtherFile =>
      (TableFile db,
       mkReport (printed (report_of o)) (raised (report_of o))
                (Some (filename, content)))
  end.

(** [main].  [initialize_database] comes first: it creates the table if
    missing and fails on a file that is not a database.  Then the
    command line is parsed ([None] stands for a command line that
    [parse_args] rejects, which ends the run), then the subcommand is
    dispatched. *)
Definition main (now : Py.datetime) (opens : string -> target)
    (args : option command) (f : dbfile) : dbfile * report :=
  match f with
  | CsvFile _ => (f, mkReport None (Some DatabaseError) None)
  | _ =>
      let db := initialize_database (table_of f) in
      match args with
      | None => (TableFile db, mkReport None (Some SystemExit) None)
      | Some (CmdAdd l s p d) =>
          let (db', o) := add_filter_change now (Some l) (Some s) (Some p) d db in
          (TableFile db', report_of o)
      | Some (CmdCheck l) =>
          (TableFile db, report_of (Printed (check_last_filter_change (Some l) db)))
      | Some CmdList =>
          (TableFile db, report_of (Printed (list_all_filter_changes db)))
      | Some (CmdDelete i) =>
          let (db', o) := delete_filter_record i db in (TableFile db', report_of o)
      | Some (CmdEdit i l s p d) =>
          let (db', o) := edit_filter_record i l s p d db in
          (TableFile db', report_of o)
      | Some (CmdExportAll filename) =>
          match export_all_to_csv db with
          | (Some content, m) => write_csv opens filename content (Printed m) db
          | (None, m) => (TableFile db, report_of (Printed m))
          end
      | Some (CmdExportLast filename) =>
          match export_last_changes_to_csv db with
          | (Some content, o) => write_csv opens filename content o db
          | (None, o) => (TableFile db, report_of o)
          end
      | Some CmdLastChanges =>
          let (m, e) := print_last_change_per_location db in
          (TableFile db, mkReport (Some m) e None)
      | Some NoCommand => (TableFile db, mkReport None None None)
      end
  end.

(** One run: its clock, where its file names land, its command line. *)
Definition run := (Py.datetime * (string -> target) * option command)%type.

(** Successive runs of the program on one database file, first to last. *)
Definition sessions (runs : list run) (f : dbfile) : dbfile :=
  fold_left (fun f r => fst (main (fst (fst r)) (snd (fst r)) (snd r) f)) runs f.

(** ** Vocabulary of the statements *)

(** [a] sorts no later than [b] as TEXT. *)
Definition text_le (a b : string) : Prop := String.compare a b <> Gt.

(** [a] sorts strictly before [b] as TEXT. *)
Definition text_lt (a b : string) : Prop := String.compare a b = Lt.

(** The output order of a comparator: [x] may precede [y]. *)
Definition precedes {A : Type} (cmp : A -> A -> comparison) (x y : A) : Prop :=
  cmp x y <> Gt.

(** [r1] is listed no later than [r2] under
    [ORDER BY location ASC, change_date DESC]: its location is smaller,
    or the locations agree and its date is not the earlier one. *)
Definition listed_before (r1 r2 : row) : Prop :=
  text_lt (location r1) (location r2) \/
  (location r1 = location r2 /\ text_le (change_date r2) (change_date r1)).

(** A record with this id is in the table. *)
Definition has_id (i : Z) (db : store) : Prop :=
  exists r, In r (rows db) /\ id r = i.

(** A record for this location is in the table. *)
Definition has_location (l : string) (db : store) : Prop :=
  exists r, In r (rows db) /\ location r = l.

(** The argument supplies the value [v] for a field: it is a non-empty
    string. *)
Definition supplies (a : Py.arg) (v : string) : Prop :=
  a = Some v /\ v <> "".

(** The argument supplies nothing: it is [None] or the empty string. *)
Definition omitted (a : Py.arg) : Prop :=
  a = None \/ a = Some "".

(** How a field of the edited record relates to its old value: the
    supplied value when the argument supplies one, the old value when it
    supplies nothing. *)
Definition field_after (a : Py.arg) (old new : string) : Prop :=
  (forall v, supplies a v -> new = v) /\ (omitted a -> new = old).

(** The shape [YYYY-MM-DD]: four digits, a dash, two digits, a dash,
    two digits. *)
Definition is_digit (c : ascii) : bool :=
  (48 <=? nat_of_ascii c)%nat && (nat_of_ascii c <=? 57)%nat.

Definition is_dash (c : ascii) : bool := Ascii.eqb c "-"%char.

Definition ymd_shaped (s : string) : bool :=
  match list_ascii_of_string s with
  | [y1; y2; y3; y4; d1; m1; m2; d2; a1; a2] =>
      is_digit y1 && is_digit y2 && is_digit y3 && is_digit y4 && is_dash d1
      && is_digit m1 && is_digit m2 && is_dash d2 && is_digit a1 && is_digit a2
  | _ => false
  end.

(** A call that does not create a record with an empty required field. *)
Definition creates_nonempty (o : op) : Prop :=
  match o with
  | Create _ l s p _ => l <> Some "" /\ s <> Some "" /\ p <> Some ""
  | _ => True
  end.

(** The required fields of a row are non-empty. *)
Definition required_nonempty (r : row) : Prop :=
  location r <> "" /\ size r <> "" /\ product_number r <> "".

(** [r] is the latest record of its location: a row of the table with
    the greatest change_date of that location and, among the rows of
    that location and date, the highest id. *)
Definition latest_of (db : store) (r : row) : Prop :=
  In r (rows db) /\
  (forall r', In r' (rows db) -> location r' = location r ->
              text_le (change_date r') (change_date r)) /\
  (forall r', In r' (rows db) -> location r' = location r ->
              change_date r' = change_date r -> id r' <= id r).

(** The groups come out in strictly ascending order of location. *)
Definition keys_ascending (groups : list (string * string)) : Prop :=
  StronglySorted (fun a b => text_lt (fst a) (fst b)) groups.

(** The line printed for a record by [print_last_change_per_location]. *)
Definition line_of (r : row) : string * string * string :=
  (location r, change_date r, product_number r).

(** [r] is the row that the per-group statement picks for the group [g]:
    a row of that location and date with the highest id among them. *)
Definition picked_for (t : list row) (g : string * string) (r : row) : Prop :=
  In r t /\ location r = fst g /\ change_date r = snd g /\
  forall r', In r' t -> location r' = fst g -> change_date r' = snd g ->
             id r' <= id r.

(** The shape of the table that the writes keep: rows in strictly
    ascending order of id, every id positive and no larger than the
    AUTOINCREMENT counter. *)
Definition well_formed (db : store) : Prop :=
  StronglySorted (fun a b => id a < id b) (rows db) /\
  Forall (fun r => 0 < id r <= seq db) (rows db) /\
  0 <= seq db.

(** Chronological order of two clock readings. *)
Definition date_compare (a b : Py.datetime) : comparison :=
  match Nat.compare (Py.year a) (Py.year b) with
  | Eq =>
      match Nat.compare (Py.month a) (Py.month b) with
      | Eq => Nat.compare (Py.day a) (Py.day b)
      | c => c
      end
  | c => c
  end.

(** A clock reading whose year has four digits, as the clock of a run
    has: years 1000 to 9999, months 1 to 12, days 1 to 31. *)
Definition four_digit_year (a : Py.datetime) : Prop :=
  1000 <= Z.of_nat (Py.year a) <= 9999 /\
  1 <= Z.of_nat (Py.month a) <= 12 /\
  1 <= Z.of_nat (Py.day a) <= 31.

(** A run whose export is pointed at the database file. *)
Definition exports_over_database (r : run) : Prop :=
  exists filename,
    (snd r = Some (CmdExportAll filename) \/
     snd r = Some (CmdExportLast filename)) /\
    snd (fst r) filename = DatabaseFile.

(** The date that [add_filter_change] stores for the argument [d] when
    the clock reads [now]. *)
Definition stored_date (now : Py.datetime) (d : Py.arg) (dv : string) : Prop :=
  supplies d dv \/ (omitted d /\ dv = Py.strftime_Ymd now).

(** What [edit_filter_record] does to one row: the SET clause, on the
    rows with the id, when the id is one the binding accepts. *)
Definition edited (i : Z) (l s p d : Py.arg) (r : row) : row :=
  if Sql.binds i && Sql.id_is i r then set_columns l s p d r else r.

(** * Properties *)

(** ** TEXT comparison *)

Module Text.

Lemma compare_refl (a : string) : String.compare a a = Eq.
Proof.
  induction a as [|c a IH]; simpl; [reflexivity|].
  unfold Ascii.compare. rewrite N.compare_refl. exact IH.
Qed.

Lemma compare_eq (a b : string) : String.compare a b = Eq <-> a = b.
Proof.
  split; [apply String.compare_eq_iff|].
  intros ->. apply compare_refl.
Qed.

Lemma compare_as_OT (a b : string) :
  String.compare a b = String_as_OT.compare a b.
Proof.
  destruct a, b; reflexivity.
Qed.

Lemma lt_trans (a b c : string) :
  String.compare a b = Lt -> String.compare b c = Lt -> String.compare a c = Lt.
Proof.
  rewrite !compare_as_OT.
  destruct String_as_OT.lt_strorder as [_ Htrans].
  apply Htrans.
Qed.

Lemma gt_lt (a b : string) : String.compare a b = Gt <-> String.compare b a = Lt.
Proof.
  rewrite (String.compare_antisym a b).
  destruct (String.compare b a); simpl; split; congruence.
Qed.

Lemma le_refl (a : string) : text_le a a.
Proof. unfold text_le. rewrite compare_refl. discriminate. Qed.

Lemma le_total (a b : string) : text_le a b \/ text_le b a.
Proof.
  unfold text_le. rewrite (String.compare_antisym b a).
  destruct (String.compare a b); simpl; [left|left|right]; discriminate.
Qed.

Lemma le_trans (a b c : string) : text_le a b -> text_le b c -> text_le a c.
Proof.
  unfold text_le. intros Hab Hbc Hac.
  apply gt_lt in Hac.
  destruct (String.compare a b) eqn:Eab; [| |congruence].
  - apply compare_eq in Eab. subst b. apply gt_lt in Hac. congruence.
  - destruct (String.compare b c) eqn:Ebc; [| |congruence].
    + apply compare_eq in Ebc. subst c.
      apply gt_lt in Hac. congruence.
    + pose proof (lt_trans _ _ _ Hac Eab) as Hcb.
      apply gt_lt in Hcb. congruence.
Qed.

Lemma le_antisym (a b : string) : text_le a b -> text_le b a -> a = b.
Proof.
  unfold text_le. intros Hab Hba.
  destruct (String.compare a b) eqn:E; [now apply compare_eq| |congruence].
  apply gt_lt in E. congruence.
Qed.

Lemma max_text_l (a b : string) : text_le a (Sql.max_text a b).
Proof.
  unfold Sql.max_text, text_le. destruct (String.compare a b) eqn:E.
  - rewrite compare_refl. discriminate.
  - rewrite E. discriminate.
  - rewrite compare_refl. discriminate.
Qed.

Lemma max_text_r (a b : string) : text_le b (Sql.max_text a b).
Proof.
  unfold Sql.max_text, text_le. destruct (String.compare a b) eqn:E.
  - apply compare_eq in E. subst. rewrite compare_refl. discriminate.
  - rewrite compare_refl. discriminate.
  - apply gt_lt in E. rewrite E. discriminate.
Qed.

Lemma max_text_cases (a b : string) :
  Sql.max_text a b = a \/ Sql.max_text a b = b.
Proof. unfold Sql.max_text. destruct (String.compare a b); auto. Qed.

End Text.

(** ** ORDER BY *)

Module OrderBy.

Section Facts.
Context {A : Type}.
Variable cmp : A -> A -> comparison.

Hypothesis cmp_antisym : forall x y, cmp x y = CompOpp (cmp y x).
Hypothesis cmp_trans : forall x y z, precedes cmp x y -> precedes cmp y z -> precedes cmp x z.

Lemma precedes_refl (x : A) : precedes cmp x x.
Proof.
  unfold precedes. intros H. pose proof (cmp_antisym x x) as E.
  rewrite H in E. discriminate.
Qed.

Lemma before_le (x y : A) : Sql.before cmp x y = true <-> precedes cmp x y.
Proof.
  unfold Sql.before, precedes.
  destruct (cmp x y); split; congruence.
Qed.

Lemma not_before_le (x y : A) : Sql.before cmp x y = false -> precedes cmp y x.
Proof.
  unfold Sql.before, precedes. rewrite (cmp_antisym y x).
  destruct (cmp x y); simpl; congruence.
Qed.

Lemma place_perm (x : A) (l : list A) :
  Permutation (x :: l) (Sql.place cmp x l).
Proof.
  induction l as [|y l IH]; simpl; [reflexivity|].
  destruct (Sql.before cmp x y); [reflexivity|].
  rewrite perm_swap. now constructor.
Qed.

Lemma order_by_perm (l : list A) : Permutation l (Sql.order_by cmp l).
Proof.
  induction l as [|x l IH]; simpl; [constructor|].
  rewrite <- place_perm. now constructor.
Qed.

Lemma order_by_in (l : list A) (x : A) : In x (Sql.order_by cmp l) <-> In x l.
Proof.
  split; apply Permutation_in;
    [symmetry | idtac]; apply order_by_perm.
Qed.

Lemma place_sorted (x : A) (l : list A) :
  StronglySorted (precedes cmp) l -> StronglySorted (precedes cmp) (Sql.place cmp x l).
Proof.
  induction 1 as [|y l Hs IH Hall]; simpl.
  - repeat constructor.
  - destruct (Sql.before cmp x y) eqn:E.
    + apply before_le in E.
      constructor; [now constructor|].
      constructor; [exact E|].
      eapply Forall_impl; [|exact Hall].
      intros z Hz. now apply cmp_trans with y.
    + apply not_before_le in E.
      constructor; [exact IH|].
      apply (Permutation_Forall (place_perm x l)).
      now constructor.
Qed.

Lemma order_by_sorted (l : list A) : StronglySorted (precedes cmp) (Sql.order_by cmp l).
Proof.
  induction l as [|x l IH]; simpl; [constructor|].
  now apply place_sorted.
Qed.

(** [LIMIT 1] of an ordered result is a least row. *)
Lemma fetchone_least (l : list A) (x : A) :
  Sql.fetchone (Sql.order_by cmp l) = Some x ->
  In x l /\ forall y, In y l -> precedes cmp x y.
Proof.
  unfold Sql.fetchone.
  pose proof (order_by_sorted l) as Hs.
  pose proof (order_by_in l) as Hin.
  destruct (Sql.order_by cmp l) as [|z rest]; simpl; [discriminate|].
  intros [= ->]. split.
  - apply Hin. now left.
  - intros y Hy. apply Hin in Hy. destruct Hy as [->|Hy].
    + apply precedes_refl.
    + apply StronglySorted_inv in Hs. destruct Hs as [_ Hall].
      rewrite Forall_forall in Hall. now apply Hall.
Qed.

End Facts.

(** An ordered result is empty only for an empty input; these need
    nothing of the comparator. *)
Lemma place_not_nil {A : Type} (cmp : A -> A -> comparison) (x : A) (l : list A) :
  Sql.place cmp x l <> [].
Proof. destruct l; simpl; [discriminate|]. destruct (Sql.before cmp x a); discriminate. Qed.

Lemma order_by_nil {A : Type} (cmp : A -> A -> comparison) (l : list A) :
  Sql.order_by cmp l = [] <-> l = [].
Proof.
  split; [|intros ->; reflexivity].
  destruct l; simpl; [reflexivity|]. intros H. now apply place_not_nil in H.
Qed.

Lemma fetchone_some {A : Type} (cmp : A -> A -> comparison) (l : list A) :
  l <> [] -> exists x, Sql.fetchone (Sql.order_by cmp l) = Some x.
Proof.
  intros Hl. unfold Sql.fetchone.
  destruct (Sql.order_by cmp l) as [|x rest] eqn:E.
  - apply order_by_nil in E. contradiction.
  - exists x. reflexivity.
Qed.

Lemma fetchone_none {A : Type} (cmp : A -> A -> comparison) (l : list A) :
  Sql.fetchone (Sql.order_by cmp l) = None <-> l = [].
Proof.
  unfold Sql.fetchone. rewrite <- (order_by_nil cmp l).
  destruct (Sql.order_by cmp l); simpl; split; congruence.
Qed.

End OrderBy.

(** ** The three orderings of the source *)

Module Orderings.

Lemma by_id_desc_antisym (x y : row) :
  Sql.by_id_desc x y = CompOpp (Sql.by_id_desc y x).
Proof. unfold Sql.by_id_desc. apply Z.compare_antisym. Qed.

Lemma by_id_desc_le (x y : row) :
  precedes Sql.by_id_desc x y <-> id y <= id x.
Proof. unfold precedes, Sql.by_id_desc. reflexivity. Qed.

Lemma by_id_desc_trans (x y z : row) :
  precedes Sql.by_id_desc x y -> precedes Sql.by_id_desc y z ->
  precedes Sql.by_id_desc x z.
Proof. rewrite !by_id_desc_le. lia. Qed.

Lemma by_change_date_desc_antisym (x y : row) :
  Sql.by_change_date_desc x y = CompOpp (Sql.by_change_date_desc y x).
Proof. unfold Sql.by_change_date_desc. apply String.compare_antisym. Qed.

Lemma by_change_date_desc_le (x y : row) :
  precedes Sql.by_change_date_desc x y <->
  text_le (change_date y) (change_date x).
Proof. reflexivity. Qed.

Lemma by_change_date_desc_trans (x y z : row) :
  precedes Sql.by_change_date_desc x y ->
  precedes Sql.by_change_date_desc y z ->
  precedes Sql.by_change_date_desc x z.
Proof.
  rewrite !by_change_date_desc_le. intros H1 H2.
  now apply Text.le_trans with (change_date y).
Qed.

Lemma by_location_date_antisym (x y : row) :
  Sql.by_location_asc_change_date_desc x y =
  CompOpp (Sql.by_location_asc_change_date_desc y x).
Proof.
  unfold Sql.by_location_asc_change_date_desc.
  rewrite (String.compare_antisym (location y) (location x)).
  destruct (String.compare (location x) (location y)); simpl; try reflexivity.
  apply String.compare_antisym.
Qed.

Lemma by_location_date_le (x y : row) :
  precedes Sql.by_location_asc_change_date_desc x y <-> listed_before x y.
Proof.
  unfold precedes, Sql.by_location_asc_change_date_desc, listed_before, text_lt.
  destruct (String.compare (location x) (location y)) eqn:E.
  - apply Text.compare_eq in E. split.
    + intros H. right. split; [exact E|exact H].
    + intros [H|[_ H]]; [discriminate|exact H].
  - split; [now left|discriminate].
  - split; [congruence|].
    intros [H|[H _]]; [discriminate|].
    apply Text.compare_eq in H. congruence.
Qed.

Lemma listed_before_trans (x y z : row) :
  listed_before x y -> listed_before y z -> listed_before x z.
Proof.
  unfold listed_before.
  intros [Hxy|[Hxy Dxy]] [Hyz|[Hyz Dyz]].
  - left. now apply Text.lt_trans with (location y).
  - left. now rewrite <- Hyz.
  - left. now rewrite Hxy.
  - right. split; [congruence|].
    now apply Text.le_trans with (change_date y).
Qed.

Lemma by_location_date_trans (x y z : row) :
  precedes Sql.by_location_asc_change_date_desc x y ->
  precedes Sql.by_location_asc_change_date_desc y z ->
  precedes Sql.by_location_asc_change_date_desc x z.
Proof. rewrite !by_location_date_le. apply listed_before_trans. Qed.

Lemma sorted_listed_before (l : list row) :
  StronglySorted listed_before (Sql.order_by Sql.by_location_asc_change_date_desc l).
Proof.
  pose proof (OrderBy.order_by_sorted _ by_location_date_antisym
                by_location_date_trans l) as H.
  induction H as [|r rest Hs IH Hall]; constructor; [exact IH|].
  eapply Forall_impl; [|exact Hall].
  intros a Ha. now apply by_location_date_le.
Qed.

End Orderings.

(** ** Lookups by id *)

Module ById.

Lemma id_is_true (i : Z) (r : row) : Sql.id_is i r = true <-> id r = i.
Proof. unfold Sql.id_is. apply Z.eqb_eq. Qed.

Lemma id_is_false (i : Z) (r : row) : Sql.id_is i r = false <-> id r <> i.
Proof. unfold Sql.id_is. apply Z.eqb_neq. Qed.

Lemma select_none (i : Z) (db : store) :
  select_by_id i db = None <-> ~ has_id i db.
Proof.
  unfold select_by_id, has_id. split.
  - intros H [r [Hr Hid]].
    assert (In r (filter (Sql.id_is i) (rows db))) as Hin
      by (apply filter_In; split; [exact Hr|now apply id_is_true]).
    destruct (filter (Sql.id_is i) (rows db)); [contradiction|discriminate].
  - intros H.
    destruct (filter (Sql.id_is i) (rows db)) as [|r rest] eqn:E; [reflexivity|].
    assert (In r (filter (Sql.id_is i) (rows db))) as Hin by (rewrite E; now left).
    apply filter_In in Hin. destruct Hin as [Hr Hid].
    apply id_is_true in Hid. exfalso. apply H. now exists r.
Qed.

Lemma select_some (i : Z) (db : store) :
  has_id i db -> exists r, select_by_id i db = Some r.
Proof.
  intros H.
  destruct (select_by_id i db) as [r'|] eqn:E; [now exists r'|].
  rewrite select_none in E. contradiction.
Qed.

End ById.

(** ** Arguments *)

Module Args.

Lemma truthy_supplies (a : Py.arg) :
  Py.truthy a = true <-> exists v, supplies a v.
Proof.
  unfold Py.truthy, supplies. destruct a as [v|].
  - destruct (String.eqb v "") eqn:E; simpl.
    + apply String.eqb_eq in E. split; [discriminate|].
      intros [w [[= <-] Hw]]. contradiction.
    + apply String.eqb_neq in E. split; [|reflexivity].
      intros _. now exists v.
  - split; [discriminate|]. intros [w [H _]]. discriminate.
Qed.

Lemma truthy_omitted (a : Py.arg) : Py.truthy a = false <-> omitted a.
Proof.
  unfold Py.truthy, omitted. destruct a as [v|].
  - destruct (String.eqb v "") eqn:E; simpl.
    + apply String.eqb_eq in E. subst v. split; auto.
    + apply String.eqb_neq in E. split; [discriminate|].
      intros [H|[= H]]; [discriminate|contradiction].
  - split; auto.
Qed.

Lemma any_update_false (l s p d : Py.arg) :
  any_update l s p d = false <->
  omitted l /\ omitted s /\ omitted p /\ omitted d.
Proof.
  unfold any_update. rewrite <- !truthy_omitted.
  destruct (Py.truthy l), (Py.truthy s), (Py.truthy p), (Py.truthy d);
    simpl; intuition congruence.
Qed.

Lemma assign_field_after (a : Py.arg) (old : string) :
  field_after a old (assign a old).
Proof.
  unfold field_after, assign. split.
  - intros v Hv. assert (Py.truthy a = true) as Ht
      by (apply truthy_supplies; now exists v).
    destruct Hv as [-> _]. now rewrite Ht.
  - intros Ho. apply truthy_omitted in Ho.
    destruct a; [now rewrite Ho|reflexivity].
Qed.

Lemma Forall2_map {A B : Type} (R : A -> B -> Prop) (f : A -> B) (l : list A) :
  (forall x, In x l -> R x (f x)) -> Forall2 R l (map f l).
Proof.
  induction l as [|x l IH]; simpl; intros H; constructor.
  - apply H. now left.
  - apply IH. intros y Hy. apply H. now right.
Qed.

End Args.

(** ** ListAll and ExportAll *)

(** C6. [list_all_filter_changes] fetches every row of the table exactly
    once (the fetched list is a permutation of the table), ordered by
    location ascending and, within a location, by change_date descending;
    what is shown is that list, and on an empty table the fetched list is
    empty and the "no records" line is printed instead of an error. *)
Theorem list_all_complete_and_ordered (db : store) :
  Permutation (rows db) (list_all_records db) /\
  StronglySorted listed_before (list_all_records db) /\
  list_all_filter_changes db =
    match rows db with
    | [] => NoFilterChangeRecords
    | _ => Listing (list_all_records db)
    end /\
  (forall n, list_all_records (mkStore [] n) = []).
Proof.
  unfold list_all_filter_changes, list_all_records.
  repeat split.
  - apply OrderBy.order_by_perm.
  - apply Orderings.sorted_listed_before.
  - destruct (Sql.order_by Sql.by_location_asc_change_date_desc (rows db))
      as [|r rest] eqn:E.
    + apply OrderBy.order_by_nil in E. now rewrite E.
    + destruct (rows db); [discriminate|reflexivity].
Qed.

(** C9. The records that [export_all_to_csv] fetches are the records that
    [list_all_filter_changes] fetches, in the same order (location
    ascending, change_date descending within a location); the file holds
    the header and then exactly those records, and no file is written
    when there are none. *)
Theorem export_all_same_as_list_all (db : store) :
  export_all_records db = list_all_records db /\
  StronglySorted listed_before (export_all_records db) /\
  fst (export_all_to_csv db) =
    match list_all_records db with
    | [] => None
    | records => Some (header :: map cells records)
    end.
Proof.
  repeat split.
  - apply Orderings.sorted_listed_before.
  - unfold export_all_to_csv, export_all_records, list_all_records.
    destruct (Sql.order_by Sql.by_location_asc_change_date_desc (rows db));
      reflexivity.
Qed.

(** ** Delete *)

Module DeleteFacts.

Lemma delete_unbound (i : Z) (db : store) :
  Sql.binds i = false -> delete_filter_record i db = (db, Raised OverflowError).
Proof. intros H. unfold delete_filter_record. now rewrite H. Qed.

(** A delete adds no row. *)
Lemma rows_kept (i : Z) (db : store) (r : row) :
  In r (rows (fst (delete_filter_record i db))) -> In r (rows db).
Proof.
  unfold delete_filter_record.
  destruct (Sql.binds i); [|auto].
  destruct (select_by_id i db); simpl; [|auto].
  intros H. apply filter_In in H. tauto.
Qed.

Lemma rows_after (i : Z) (db : store) (r : row) :
  Sql.binds i = true ->
  In r (rows (fst (delete_filter_record i db))) <-> In r (rows db) /\ id r <> i.
Proof.
  intros Hb. unfold delete_filter_record. rewrite Hb.
  destruct (select_by_id i db) eqn:E; simpl.
  - rewrite filter_In, negb_true_iff, ById.id_is_false. reflexivity.
  - rewrite ById.select_none in E. split; [|tauto].
    intros Hr. split; [exact Hr|].
    intros Hid. apply E. now exists r.
Qed.

Lemma gone (i : Z) (db : store) :
  Sql.binds i = true -> ~ has_id i (fst (delete_filter_record i db)).
Proof.
  intros Hb [r [Hr Hid]]. apply (rows_after i db r Hb) in Hr. tauto.
Qed.

End DeleteFacts.

(** C5, as the code has it.  [delete_filter_record] on an id that no
    record has leaves the database as it was, so the listing is the same
    before and after; it reports "no record found" when the id fits an
    SQLite INTEGER, and otherwise the binding raises [OverflowError] and
    nothing is reported.  On an id that fits and that a record has, it
    removes the records with that id and no other, and every later
    lookup of that id (by a delete or by an edit) reports "no record
    found". *)
Theorem delete_filter_record_correct (db : store) (i : Z) :
  let db' := fst (delete_filter_record i db) in
  let out := snd (delete_filter_record i db) in
  (~ has_id i db ->
     db' = db /\
     list_all_records db' = list_all_records db /\
     out = if Sql.binds i then Printed (NoRecordWithId i)
           else Raised OverflowError) /\
  (Sql.binds i = false -> db' = db /\ out = Raised OverflowError) /\
  (has_id i db -> Sql.binds i = true ->
     out = Printed (Deleted i) /\
     (forall r, In r (rows db') <-> In r (rows db) /\ id r <> i) /\
     select_by_id i db' = None /\
     delete_filter_record i db' = (db', Printed (NoRecordWithId i)) /\
     forall l s p d,
       edit_filter_record i l s p d db' = (db', Printed (NoRecordWithId i))).
Proof.
  cbv zeta. split; [|split].
  - intros H. apply ById.select_none in H.
    unfold delete_filter_record. rewrite H.
    destruct (Sql.binds i); simpl; auto.
  - intros Hb. now rewrite (DeleteFacts.delete_unbound i db Hb).
  - intros H Hb.
    assert (select_by_id i (fst (delete_filter_record i db)) = None) as Hnone
      by (now apply ById.select_none, DeleteFacts.gone).
    split; [|split; [|split; [|split]]].
    + apply ById.select_some in H. destruct H as [r Hr].
      unfold delete_filter_record. now rewrite Hb, Hr.
    + intros r. now apply DeleteFacts.rows_after.
    + exact Hnone.
    + unfold delete_filter_record at 1. now rewrite Hb, Hnone.
    + intros l s p d. unfold edit_filter_record. now rewrite Hb, Hnone.
Qed.

Lemma delete_filter_record_correct_witness :
  (~ has_id 7 Runs.kitchen2 /\
   fst (delete_filter_record 7 Runs.kitchen2) = Runs.kitchen2) /\
  (Sql.binds 9223372036854775808 = false /\
   snd (delete_filter_record 9223372036854775808 Runs.kitchen2) =
     Raised OverflowError) /\
  (has_id 1 Runs.kitchen2 /\ Sql.binds 1 = true /\
   select_by_id 1 (fst (delete_filter_record 1 Runs.kitchen2)) = None).
Proof.
  assert (~ has_id 7 Runs.kitchen2) as Hno.
  { intros [r [[<-|[<-|[]]] Hid]]; discriminate. }
  assert (has_id 1 Runs.kitchen2) as Hyes.
  { eexists. split; [left; reflexivity|reflexivity]. }
  assert (Sql.binds 9223372036854775808 = false) as Hbig by reflexivity.
  assert (Sql.binds 1 = true) as Hone by reflexivity.
  split; [|split].
  - split; [exact Hno|].
    exact (proj1 (proj1 (delete_filter_record_correct Runs.kitchen2 7) Hno)).
  - split; [exact Hbig|].
    exact (proj2 (proj1 (proj2
      (delete_filter_record_correct Runs.kitchen2 9223372036854775808)) Hbig)).
  - split; [exact Hyes|]. split; [exact Hone|].
    exact (proj1 (proj2 (proj2 (proj2 (proj2
      (delete_filter_record_correct Runs.kitchen2 1)) Hyes Hone)))).
Defined.

(** C5 fails as stated: no record has the id 2^63, and the delete does
    not report "no record found"; the binding raises [OverflowError]. *)
Lemma delete_unbound_id_raises :
  ~ has_id 9223372036854775808 Runs.kitchen2 /\
  delete_filter_record 9223372036854775808 Runs.kitchen2 =
    (Runs.kitchen2, Raised OverflowError) /\
  snd (delete_filter_record 9223372036854775808 Runs.kitchen2) <>
    Printed (NoRecordWithId 9223372036854775808).
Proof.
  split; [|split; [reflexivity|discriminate]].
  intros [r [[<-|[<-|[]]] Hid]]; discriminate.
Qed.

(** ** Update *)

Module EditFacts.

Lemma edit_unbound (i : Z) (l s p d : Py.arg) (db : store) :
  Sql.binds i = false ->
  edit_filter_record i l s p d db = (db, Raised OverflowError).
Proof. intros H. unfold edit_filter_record. now rewrite H. Qed.

End EditFacts.

(** C4, as the code has it.  [edit_filter_record] on an id that no
    record has writes nothing; it reports "no record found" when the id
    fits an SQLite INTEGER, and otherwise the binding raises
    [OverflowError] and nothing is reported.  When every field argument
    is omitted ([None] or empty) it writes nothing, and reports "no
    fields provided" if the record exists.  When the record exists and
    some field is supplied, it reports the update, and in the new table
    every row keeps its id, rows with another id are untouched, and in
    the row with this id each column holds the supplied value if one was
    supplied and its prior value otherwise. *)
Theorem edit_filter_record_frame (db : store) (i : Z) (l s p d : Py.arg) :
  let db' := fst (edit_filter_record i l s p d db) in
  let out := snd (edit_filter_record i l s p d db) in
  (~ has_id i db ->
     db' = db /\
     out = if Sql.binds i then Printed (NoRecordWithId i)
           else Raised OverflowError) /\
  (Sql.binds i = false -> db' = db /\ out = Raised OverflowError) /\
  (omitted l /\ omitted s /\ omitted p /\ omitted d ->
     db' = db /\
     (has_id i db -> Sql.binds i = true -> out = Printed NoFieldsProvided)) /\
  (has_id i db -> Sql.binds i = true ->
   ~ (omitted l /\ omitted s /\ omitted p /\ omitted d) ->
     out = Printed (Updated i) /\ seq db' = seq db /\
     Forall2
       (fun r r' =>
          id r' = id r /\
          (id r <> i -> r' = r) /\
          (id r = i ->
             field_after l (location r) (location r') /\
             field_after s (size r) (size r') /\
             field_after p (product_number r) (product_number r') /\
             field_after d (change_date r) (change_date r')))
       (rows db) (rows db')).
Proof.
  cbv zeta. split; [|split; [|split]].
  - intros H. apply ById.select_none in H.
    unfold edit_filter_record. rewrite H.
    destruct (Sql.binds i); simpl; auto.
  - intros Hb. now rewrite (EditFacts.edit_unbound i l s p d db Hb).
  - intros H. apply Args.any_update_false in H.
    unfold edit_filter_record. rewrite H.
    destruct (Sql.binds i); [|split; [reflexivity|discriminate]].
    destruct (select_by_id i db) eqn:E; simpl; split; auto.
    intros Hid. apply ById.select_none in E. contradiction.
  - intros Hid Hb Hsome. unfold edit_filter_record. rewrite Hb.
    apply ById.select_some in Hid. destruct Hid as [r0 Hr0]. rewrite Hr0.
    destruct (any_update l s p d) eqn:E.
    2:{ apply Args.any_update_false in E. contradiction. }
    simpl. split; [reflexivity|split; [reflexivity|]].
    apply Args.Forall2_map. intros r _.
    destruct (Sql.id_is i r) eqn:Er.
    + apply ById.id_is_true in Er.
      destruct r as [ri rl rs rp rd]; simpl in *.
      split; [reflexivity|]. split; [intros Hne; contradiction|].
      intros _. repeat split; apply Args.assign_field_after.
    + apply ById.id_is_false in Er.
      split; [reflexivity|]. split; [reflexivity|].
      intros Heq. contradiction.
Qed.

Lemma edit_filter_record_frame_witness :
  (~ has_id 7 Runs.kitchen2 /\
   fst (edit_filter_record 7 (Some "Attic") None None None Runs.kitchen2) =
     Runs.kitchen2) /\
  (Sql.binds 9223372036854775808 = false /\
   snd (edit_filter_record 9223372036854775808 (Some "Attic") None None None
                           Runs.kitchen2) = Raised OverflowError) /\
  ((omitted None /\ omitted (Some "") /\ omitted None /\ omitted None) /\
   fst (edit_filter_record 1 None (Some "") None None Runs.kitchen2) =
     Runs.kitchen2) /\
  (has_id 1 Runs.kitchen2 /\ Sql.binds 1 = true /\
   ~ (omitted None /\ omitted (Some "16x25") /\ omitted None /\ omitted None) /\
   snd (edit_filter_record 1 None (Some "16x25") None None Runs.kitchen2) =
     Printed (Updated 1)).
Proof.
  assert (~ has_id 7 Runs.kitchen2) as Hno.
  { intros [r [[<-|[<-|[]]] Hid]]; discriminate. }
  assert (has_id 1 Runs.kitchen2) as Hyes.
  { eexists. split; [left; reflexivity|reflexivity]. }
  assert (Sql.binds 9223372036854775808 = false) as Hbig by reflexivity.
  assert (Sql.binds 1 = true) as Hone by reflexivity.
  assert (omitted None /\ omitted (Some "") /\ omitted None /\ omitted None) as Hom.
  { unfold omitted. repeat split; auto. }
  assert (~ (omitted None /\ omitted (Some "16x25") /\ omitted None /\ omitted None))
    as Hsup.
  { intros [_ [[H|H] _]]; discriminate. }
  split; [|split; [|split]].
  - split; [exact Hno|].
    exact (proj1 (proj1 (edit_filter_record_frame Runs.kitchen2 7
                           (Some "Attic") None None None) Hno)).
  - split; [exact Hbig|].
    exact (proj2 (proj1 (proj2 (edit_filter_record_frame Runs.kitchen2
             9223372036854775808 (Some "Attic") None None None)) Hbig)).
  - split; [exact Hom|].
    exact (proj1 (proj1 (proj2 (proj2 (edit_filter_record_frame Runs.kitchen2 1
                                  None (Some "") None None))) Hom)).
  - split; [exact Hyes|]. split; [exact Hone|]. split; [exact Hsup|].
    exact (proj1 (proj2 (proj2 (proj2 (edit_filter_record_frame Runs.kitchen2 1
                                  None (Some "16x25") None None))) Hyes Hone Hsup)).
Defined.

(** C4 fails as stated: no record has the id 2^63, and the edit does
    not report "no record found"; the binding raises [OverflowError]. *)
Lemma edit_unbound_id_raises :
  ~ has_id 9223372036854775808 Runs.kitchen2 /\
  edit_filter_record 9223372036854775808 (Some "Attic") None None None
                     Runs.kitchen2 = (Runs.kitchen2, Raised OverflowError) /\
  snd (edit_filter_record 9223372036854775808 (Some "Attic") None None None
                          Runs.kitchen2) <>
    Printed (NoRecordWithId 9223372036854775808).
Proof.
  split; [|split; [reflexivity|discriminate]].
  intros [r [[<-|[<-|[]]] Hid]]; discriminate.
Qed.

(** ** The clock *)

Module Clock.

Lemma digit_is_digit (n : nat) : is_digit (Py.digit n) = true.
Proof.
  unfold Py.digit.
  pose proof (Nat.mod_upper_bound n 10) as H.
  assert (Nat.modulo n 10 < 10)%nat as Hlt by (apply H; discriminate).
  clear H. destruct (Nat.modulo n 10) as [|[|[|[|[|[|[|[|[|[|k]]]]]]]]]];
    try reflexivity.
  exfalso. lia.
Qed.

Lemma strftime_shaped (now : Py.datetime) :
  ymd_shaped (Py.strftime_Ymd now) = true.
Proof.
  unfold Py.strftime_Ymd, Py.pad4, Py.pad2, ymd_shaped.
  cbn [append list_ascii_of_string].
  rewrite !digit_is_digit. reflexivity.
Qed.

Lemma strftime_length (now : Py.datetime) :
  String.length (Py.strftime_Ymd now) = 10%nat.
Proof. reflexivity. Qed.

Lemma strftime_not_empty (now : Py.datetime) : Py.strftime_Ymd now <> "".
Proof. discriminate. Qed.

End Clock.

(** ** Create *)

Module CreateFacts.

(** The date that is stored: the argument when it is truthy, today's
    date otherwise. *)
Lemma stored_date (now : Py.datetime) (d : Py.arg) :
  exists dv,
    (if Py.truthy d then d else Some (Py.strftime_Ymd now)) = Some dv /\
    dv <> "" /\
    (omitted d -> dv = Py.strftime_Ymd now) /\
    (forall v, supplies d v -> dv = v).
Proof.
  destruct (Py.truthy d) eqn:E.
  - pose proof E as E'. apply Args.truthy_supplies in E'. destruct E' as [v [Hv Hne]].
    exists v. repeat split; auto.
    + intros Ho. apply Args.truthy_omitted in Ho. congruence.
    + intros w [Hw _]. congruence.
  - exists (Py.strftime_Ymd now). repeat split; auto.
    + apply Clock.strftime_not_empty.
    + intros v Hv. assert (Py.truthy d = true) as Ht
        by (apply Args.truthy_supplies; now exists v).
      congruence.
Qed.

(** A successful insert. *)
Lemma inserted (now : Py.datetime) (lv sv pv : string) (d : Py.arg) (db : store) :
  seq db < Sql.max_rowid ->
  exists dv,
    (if Py.truthy d then d else Some (Py.strftime_Ymd now)) = Some dv /\
    add_filter_change now (Some lv) (Some sv) (Some pv) d db =
      (mkStore (rows db ++ [mkRow (seq db + 1) lv sv pv dv]) (seq db + 1),
       Printed (Recorded lv dv)).
Proof.
  intros Hseq. destruct (stored_date now d) as [dv [Hd _]].
  exists dv. split; [exact Hd|].
  unfold add_filter_change. rewrite Hd.
  destruct (Sql.max_rowid <=? seq db) eqn:E; [|reflexivity].
  apply Z.leb_le in E. lia.
Qed.

(** What a call can do to the table: nothing, or append one row with a
    fresh id, the given fields and a non-empty date. *)
Lemma effect (now : Py.datetime) (l s p d : Py.arg) (db : store) :
  fst (add_filter_change now l s p d db) = db \/
  exists lv sv pv dv,
    l = Some lv /\ s = Some sv /\ p = Some pv /\ dv <> "" /\
    seq db < Sql.max_rowid /\
    fst (add_filter_change now l s p d db) =
      mkStore (rows db ++ [mkRow (seq db + 1) lv sv pv dv]) (seq db + 1).
Proof.
  unfold add_filter_change.
  destruct (stored_date now d) as [dv [Hd [Hne _]]]. rewrite Hd.
  destruct (Sql.max_rowid <=? seq db) eqn:E; [now left|].
  apply Z.leb_gt in E.
  destruct l as [lv|], s as [sv|], p as [pv|]; try (now left).
  right. exists lv, sv, pv, dv. repeat split; auto.
Qed.

End CreateFacts.

(** C10. A call of [add_filter_change] with the empty string as
    change_date does exactly what the call without a change_date does;
    the date that gets stored is today's date in the shape YYYY-MM-DD,
    not the empty string. *)
Theorem add_empty_change_date_is_today
    (now : Py.datetime) (l s p : Py.arg) (lv sv pv : string) (db : store) :
  add_filter_change now l s p (Some "") db = add_filter_change now l s p None db /\
  ymd_shaped (Py.strftime_Ymd now) = true /\
  Py.strftime_Ymd now <> "" /\
  (seq db < Sql.max_rowid ->
   add_filter_change now (Some lv) (Some sv) (Some pv) (Some "") db =
     (mkStore (rows db ++ [mkRow (seq db + 1) lv sv pv (Py.strftime_Ymd now)])
              (seq db + 1),
      Printed (Recorded lv (Py.strftime_Ymd now)))).
Proof.
  split; [reflexivity|].
  split; [apply Clock.strftime_shaped|].
  split; [apply Clock.strftime_not_empty|].
  intros Hseq.
  destruct (CreateFacts.inserted now lv sv pv (Some "") db Hseq) as [dv [Hd Hadd]].
  simpl in Hd. injection Hd as <-. exact Hadd.
Qed.

Lemma add_empty_change_date_is_today_witness :
  seq empty_store < Sql.max_rowid /\
  add_filter_change Runs.jan1 (Some "Kitchen") (Some "20x20") (Some "ABC123")
                    (Some "") empty_store =
    (mkStore [mkRow 1 "Kitchen" "20x20" "ABC123" "2024-01-01"] 1,
     Printed (Recorded "Kitchen" "2024-01-01")).
Proof.
  split; [reflexivity|].
  apply (add_empty_change_date_is_today Runs.jan1 None None None
           "Kitchen" "20x20" "ABC123" empty_store).
  reflexivity.
Defined.




(** ** What the writes preserve *)

Module Preserved.

Lemma assign_not_empty (a : Py.arg) (old : string) :
  old <> "" -> assign a old <> "".
Proof.
  intros Hold. unfold assign. destruct a as [v|]; [|exact Hold].
  destruct (Py.truthy (Some v)) eqn:E; [|exact Hold].
  apply Args.truthy_supplies in E. destruct E as [w [[= <-] Hw]]. exact Hw.
Qed.

Lemma set_columns_change_date (l s p d : Py.arg) (r : row) :
  change_date r <> "" -> change_date (set_columns l s p d r) <> "".
Proof. destruct r; simpl. apply assign_not_empty. Qed.

Lemma set_columns_required (l s p d : Py.arg) (r : row) :
  required_nonempty r -> required_nonempty (set_columns l s p d r).
Proof.
  unfold required_nonempty. destruct r; simpl.
  intros [Hl [Hs Hp]]. repeat split; now apply assign_not_empty.
Qed.

Section RowProperty.
Variable P : row -> Prop.

Lemma by_delete (i : Z) (db : store) :
  Forall P (rows db) -> Forall P (rows (fst (delete_filter_record i db))).
Proof.
  rewrite !Forall_forall. intros H r Hr.
  apply DeleteFacts.rows_kept in Hr. now apply H.
Qed.

Lemma by_edit (i : Z) (l s p d : Py.arg) (db : store) :
  (forall r, P r -> P (set_columns l s p d r)) ->
  Forall P (rows db) -> Forall P (rows (fst (edit_filter_record i l s p d db))).
Proof.
  intros Hset H. unfold edit_filter_record.
  destruct (Sql.binds i); [|exact H].
  destruct (select_by_id i db) as [found|]; [|exact H].
  destruct (any_update l s p d); [|exact H].
  simpl. rewrite Forall_forall in *. intros r' Hr'.
  apply in_map_iff in Hr'. destruct Hr' as [r0 [<- Hr0]].
  destruct (Sql.id_is i r0); auto.
Qed.

Lemma by_add (now : Py.datetime) (l s p d : Py.arg) (db : store) :
  (forall i lv sv pv dv,
      l = Some lv -> s = Some sv -> p = Some pv -> dv <> "" ->
      P (mkRow i lv sv pv dv)) ->
  Forall P (rows db) -> Forall P (rows (fst (add_filter_change now l s p d db))).
Proof.
  intros Hnew H.
  destruct (CreateFacts.effect now l s p d db)
    as [->|[lv [sv [pv [dv [Hl [Hs [Hp [Hd [_ ->]]]]]]]]]]; [exact H|].
  simpl. apply Forall_app. split; [exact H|].
  constructor; [|constructor]. now apply Hnew.
Qed.

End RowProperty.

Lemma change_date_step (o : op) (db : store) :
  Forall (fun r => change_date r <> "") (rows db) ->
  Forall (fun r => change_date r <> "") (rows (run_op o db)).
Proof.
  destruct o as [now l s p d|i l s p d|i]; simpl.
  - apply by_add. intros; assumption.
  - apply by_edit. intros r. apply set_columns_change_date.
  - apply by_delete.
Qed.

Lemma required_step (o : op) (db : store) :
  creates_nonempty o ->
  Forall required_nonempty (rows db) ->
  Forall required_nonempty (rows (run_op o db)).
Proof.
  destruct o as [now l s p d|i l s p d|i]; simpl; intros Hc.
  - apply by_add. intros i lv sv pv dv -> -> -> _.
    destruct Hc as [Hl [Hs Hp]]. unfold required_nonempty; simpl.
    repeat split; congruence.
  - apply by_edit. intros r. apply set_columns_required.
  - apply by_delete.
Qed.

Lemma run_ops_cons (o : op) (ops : list op) (db : store) :
  run_ops (o :: ops) db = run_ops ops (run_op o db).
Proof. reflexivity. Qed.

Lemma change_date_run (ops : list op) (db : store) :
  Forall (fun r => change_date r <> "") (rows db) ->
  Forall (fun r => change_date r <> "") (rows (run_ops ops db)).
Proof.
  revert db. induction ops as [|o ops IH]; intros db H; [exact H|].
  rewrite run_ops_cons. apply IH. now apply change_date_step.
Qed.

Lemma required_run (ops : list op) (db : store) :
  Forall creates_nonempty ops ->
  Forall required_nonempty (rows db) ->
  Forall required_nonempty (rows (run_ops ops db)).
Proof.
  revert db. induction ops as [|o ops IH]; intros db Hops H; [exact H|].
  rewrite run_ops_cons. inversion Hops; subst.
  apply IH; [assumption|]. now apply required_step.
Qed.

End Preserved.

(** C3, as the code has it.  In every state that a sequence of creates,
    updates and deletes brings a fresh database to, every record has a
    non-empty change_date; its location, size and product_number are
    non-empty as well when no create of the sequence was given an empty
    one (an update never empties a field). *)
Theorem persisted_fields_nonempty (ops : list op) :
  Forall (fun r => change_date r <> "")
         (rows (run_ops ops (initialize_database None))) /\
  (Forall creates_nonempty ops ->
   Forall required_nonempty (rows (run_ops ops (initialize_database None)))).
Proof.
  split.
  - apply Preserved.change_date_run. constructor.
  - intros Hops. apply Preserved.required_run; [exact Hops|constructor].
Qed.

Lemma persisted_fields_nonempty_witness :
  Forall creates_nonempty
    [Create Runs.jan1 (Some "Kitchen") (Some "20x20") (Some "ABC123") None;
     Update 1 None (Some "") (Some "ABC999") None;
     Delete 5] /\
  Forall required_nonempty
    (rows (run_ops
       [Create Runs.jan1 (Some "Kitchen") (Some "20x20") (Some "ABC123") None;
        Update 1 None (Some "") (Some "ABC999") None;
        Delete 5] (initialize_database None))).
Proof.
  assert (Forall creates_nonempty
    [Create Runs.jan1 (Some "Kitchen") (Some "20x20") (Some "ABC123") None;
     Update 1 None (Some "") (Some "ABC999") None;
     Delete 5]) as H.
  { repeat constructor; simpl; discriminate. }
  split; [exact H|].
  exact (proj2 (persisted_fields_nonempty _) H).
Defined.

(** C3 fails as stated: a create with an empty location is stored, so a
    reachable state holds a record whose location is empty. *)
Lemma reachable_with_empty_location :
  ~ (forall db, reachable db ->
       Forall (fun r => location r <> "" /\ size r <> "" /\
                        product_number r <> "" /\ change_date r <> "")
              (rows db)).
Proof.
  intros H.
  assert (reachable Runs.blank) as Hr by (eexists; reflexivity).
  apply H in Hr. apply Forall_inv in Hr. destruct Hr as [Hl _].
  apply Hl. reflexivity.
Qed.

(** ** FindLatestByLocation *)

Module FindLatest.

Lemma location_is_true (l : string) (r : row) :
  Sql.location_is (Some l) r = true <-> location r = l.
Proof. unfold Sql.location_is. apply String.eqb_eq. Qed.

(** The row that is found is a row of that location with the greatest
    change_date. *)
Lemma found_is_max (l : string) (db : store) (r : row) :
  last_filter_change_row (Some l) db = Some r ->
  In r (rows db) /\ location r = l /\
  forall r', In r' (rows db) -> location r' = l ->
             text_le (change_date r') (change_date r).
Proof.
  unfold last_filter_change_row. intros H.
  apply (OrderBy.fetchone_least _ Orderings.by_change_date_desc_antisym
           Orderings.by_change_date_desc_trans) in H.
  destruct H as [Hin Hmax]. apply filter_In in Hin. destruct Hin as [Hin Hl].
  apply location_is_true in Hl. repeat split; auto.
  intros r' Hr' Hl'. apply Orderings.by_change_date_desc_le, Hmax.
  apply filter_In. split; [exact Hr'|now apply location_is_true].
Qed.

Lemma found (l : string) (db : store) :
  has_location l db -> exists r, last_filter_change_row (Some l) db = Some r.
Proof.
  intros [r [Hr Hl]]. apply OrderBy.fetchone_some.
  intros E.
  assert (In r (filter (Sql.location_is (Some l)) (rows db))) as Hin
    by (apply filter_In; split; [exact Hr|now apply location_is_true]).
  rewrite E in Hin. contradiction.
Qed.

Lemma not_found (l : string) (db : store) :
  ~ has_location l db ->
  check_last_filter_change (Some l) db = NoRecordForLocation (Some l).
Proof.
  intros H. unfold check_last_filter_change.
  destruct (last_filter_change_row (Some l) db) as [r|] eqn:E; [|reflexivity].
  apply found_is_max in E. exfalso. apply H. exists r. tauto.
Qed.

Lemma lt_not_ge (a b : string) : text_lt a b -> text_le b a -> False.
Proof.
  unfold text_lt, text_le. intros Hlt Hle. apply Hle. now apply Text.gt_lt.
Qed.

End FindLatest.

(** C7, as the code has it.  After [add_filter_change] with location,
    size and product_number given, no change_date and a rowid left, the
    table has one more row, with the given fields and today's date in
    the shape YYYY-MM-DD.  [check_last_filter_change] for that location
    then finds a record of that location dated no earlier than today,
    and it is the new record when every record the location had before
    is dated strictly earlier than today. *)
Theorem create_then_check_last
    (now : Py.datetime) (lv sv pv : string) (db : store) :
  seq db < Sql.max_rowid ->
  let db' := fst (add_filter_change now (Some lv) (Some sv) (Some pv) None db) in
  let today := Py.strftime_Ymd now in
  let created := mkRow (seq db + 1) lv sv pv today in
  ymd_shaped today = true /\
  rows db' = rows db ++ [created] /\
  (exists r, last_filter_change_row (Some lv) db' = Some r /\
             location r = lv /\ text_le today (change_date r)) /\
  ((forall r, In r (rows db) -> location r = lv -> text_lt (change_date r) today) ->
   last_filter_change_row (Some lv) db' = Some created /\
   check_last_filter_change (Some lv) db' = LastChanged (Some lv) today pv).
Proof.
  intros Hseq. cbv zeta.
  destruct (CreateFacts.inserted now lv sv pv None db Hseq) as [dv [Hd Hadd]].
  simpl in Hd. injection Hd as <-. rewrite Hadd. simpl fst.
  set (created := mkRow (seq db + 1) lv sv pv (Py.strftime_Ymd now)).
  set (db' := mkStore (rows db ++ [created]) (seq db + 1)).
  assert (In created (rows db')) as Hin
    by (simpl; apply in_or_app; right; now left).
  assert (has_location lv db') as Hloc by (exists created; split; auto).
  destruct (FindLatest.found lv db' Hloc) as [r Hr].
  pose proof (FindLatest.found_is_max lv db' r Hr) as [Hr_in [Hr_loc Hr_max]].
  split; [apply Clock.strftime_shaped|].
  split; [reflexivity|].
  split.
  - exists r. repeat split; auto. now apply (Hr_max created).
  - intros Hbefore.
    assert (r = created) as ->.
    { simpl in Hr_in. apply in_app_or in Hr_in. destruct Hr_in as [Hold|[Hnew|[]]].
      - exfalso. apply (FindLatest.lt_not_ge (change_date r) (Py.strftime_Ymd now)).
        + now apply Hbefore.
        + now apply (Hr_max created).
      - now symmetry. }
    split; [exact Hr|].
    unfold check_last_filter_change. now rewrite Hr.
Qed.

Lemma create_then_check_last_witness :
  seq Runs.postdated < Sql.max_rowid /\
  (exists r,
     last_filter_change_row (Some "Kitchen")
       (fst (add_filter_change Runs.jan1 (Some "Kitchen") (Some "20x20")
                               (Some "ABC999") None Runs.postdated)) = Some r /\
     location r = "Kitchen" /\ text_le "2024-01-01" (change_date r)) /\
  seq empty_store < Sql.max_rowid /\
  check_last_filter_change (Some "Kitchen")
    (fst (add_filter_change Runs.jan1 (Some "Kitchen") (Some "20x20")
                            (Some "ABC999") None empty_store)) =
    LastChanged (Some "Kitchen") "2024-01-01" "ABC999".
Proof.
  assert (seq Runs.postdated < Sql.max_rowid) as H1 by reflexivity.
  assert (seq empty_store < Sql.max_rowid) as H2 by reflexivity.
  split; [exact H1|]. split.
  - exact (proj1 (proj2 (proj2
      (create_then_check_last Runs.jan1 "Kitchen" "20x20" "ABC999" Runs.postdated H1)))).
  - split; [exact H2|].
    apply (proj2 (proj2 (proj2
      (create_then_check_last Runs.jan1 "Kitchen" "20x20" "ABC999" empty_store H2)))).
    intros r [].
Defined.

(** C7 fails as stated: the location already has a record dated after
    today, and after the create [check_last_filter_change] still
    reports that record, whose product_number is not the created one. *)
Lemma postdated_record_is_still_found :
  check_last_filter_change (Some "Kitchen")
    (fst (add_filter_change Runs.jan1 (Some "Kitchen") (Some "20x20")
                            (Some "ABC999") None Runs.postdated)) =
    LastChanged (Some "Kitchen") "2099-01-01" "ABC123" /\
  option_map product_number
    (last_filter_change_row (Some "Kitchen")
       (fst (add_filter_change Runs.jan1 (Some "Kitchen") (Some "20x20")
                               (Some "ABC999") None Runs.postdated))) <>
    Some "ABC999".
Proof. split; [reflexivity|discriminate]. Qed.

(** ** GROUP BY location *)

Module Groups.

Lemma lt_irrefl (a : string) : ~ text_lt a a.
Proof. unfold text_lt. rewrite Text.compare_refl. discriminate. Qed.

Lemma head_lt (e : string * string) (g : list (string * string)) :
  keys_ascending (e :: g) ->
  keys_ascending g /\ forall k v, In (k, v) g -> text_lt (fst e) k.
Proof.
  intros H. apply StronglySorted_inv in H. destruct H as [Hs Hall].
  split; [exact Hs|]. intros k v Hin.
  rewrite Forall_forall in Hall. exact (Hall (k, v) Hin).
Qed.

Lemma in_keys (k : string) (g : list (string * string)) :
  In k (map fst g) <-> exists v, In (k, v) g.
Proof.
  rewrite in_map_iff. split.
  - intros [[k' v] [Hk Hin]]. simpl in Hk. subst k'. now exists v.
  - intros [v Hin]. now exists (k, v).
Qed.

(** A step adds no key but the row's location. *)
Lemma step_keys (l d k v : string) (g : list (string * string)) :
  In (k, v) (Sql.group_step l d g) -> k = l \/ In k (map fst g).
Proof.
  induction g as [|[l' d'] g IH]; simpl.
  - intros [[= <- <-]|[]]. now left.
  - destruct (String.compare l l') eqn:E; simpl.
    + apply Text.compare_eq in E. subst l'.
      intros [[= <- <-]|Hin]; [now left|].
      right. right. apply in_keys. now exists v.
    + intros [[= <- <-]|[[= <- <-]|Hin]]; [now left|right; now left|].
      right. right. apply in_keys. now exists v.
    + intros [[= <- <-]|Hin]; [right; now left|].
      destruct (IH Hin) as [->|Hk]; [now left|right; now right].
Qed.

(** A step keeps every key and has the row's location as a key. *)
Lemma step_has_keys (l d : string) (g : list (string * string)) :
  In l (map fst (Sql.group_step l d g)) /\
  forall k, In k (map fst g) -> In k (map fst (Sql.group_step l d g)).
Proof.
  induction g as [|[l' d'] g [IHl IHk]]; simpl.
  - split; [now left|intros k []].
  - destruct (String.compare l l') eqn:E; simpl.
    + apply Text.compare_eq in E. subst l'. split; [now left|auto].
    + split; [now left|]. intros k Hk. now right.
    + split; [now right|]. intros k [Hk|Hk]; [now left|right; auto].
Qed.

Lemma step_sorted (l d : string) (g : list (string * string)) :
  keys_ascending g -> keys_ascending (Sql.group_step l d g).
Proof.
  induction g as [|[l' d'] g IH]; simpl; intros Hs.
  - repeat constructor.
  - apply head_lt in Hs as Hh. destruct Hh as [Hg Hlt]. simpl in Hlt.
    destruct (String.compare l l') eqn:E.
    + constructor; [exact Hg|].
      apply Forall_forall. intros [k v] Hin. simpl. now apply (Hlt k v).
    + constructor; [exact Hs|].
      constructor; [exact E|].
      apply Forall_forall. intros [k v] Hin. simpl.
      apply Text.lt_trans with l'; [exact E|now apply (Hlt k v)].
    + constructor; [now apply IH|].
      apply Forall_forall. intros [k v] Hin. simpl.
      apply step_keys in Hin. destruct Hin as [->|Hk].
      * now apply Text.gt_lt.
      * apply in_keys in Hk. destruct Hk as [w Hw]. now apply (Hlt k w).
Qed.

(** Where the entries of a step come from. *)
Lemma step_entries (l d k v : string) (g : list (string * string)) :
  keys_ascending g ->
  In (k, v) (Sql.group_step l d g) ->
  (k <> l /\ In (k, v) g) \/
  (k = l /\ ((~ In l (map fst g) /\ v = d) \/
             exists d', In (l, d') g /\ v = Sql.max_text d' d)).
Proof.
  induction g as [|[l' d'] g IH]; simpl; intros Hs.
  - intros [[= <- <-]|[]]. right. split; [reflexivity|]. left. split; auto.
  - apply head_lt in Hs as Hh. destruct Hh as [Hg Hlt]. simpl in Hlt.
    destruct (String.compare l l') eqn:E; simpl.
    + apply Text.compare_eq in E. subst l'.
      intros [[= <- <-]|Hin].
      * right. split; [reflexivity|]. right. exists d'. split; auto.
      * left. split; [|now right].
        intros ->. apply (lt_irrefl l). now apply (Hlt l v).
    + intros [[= <- <-]|Hin].
      * right. split; [reflexivity|]. left. split; [|reflexivity].
        intros [Heq|Hk].
        -- subst l'. now apply (lt_irrefl l).
        -- apply in_keys in Hk. destruct Hk as [w Hw].
           apply (lt_irrefl l), Text.lt_trans with l'; [exact E|].
           now apply (Hlt l w).
      * left. split; [|exact Hin].
        intros ->. destruct Hin as [[= -> _]|Hin].
        -- now apply (lt_irrefl l).
        -- apply (lt_irrefl l), Text.lt_trans with l'; [exact E|].
           now apply (Hlt l v).
    + intros [[= <- <-]|Hin].
      * left. split; [|now left].
        intros ->. rewrite Text.compare_refl in E. discriminate.
      * destruct (IH Hg Hin) as [[Hne Hold]|[-> [[Hfresh ->]|[d0 [Hd0 ->]]]]].
        -- left. split; [exact Hne|now right].
        -- right. split; [reflexivity|]. left. split; [|reflexivity].
           intros [Heq|Hk]; [|contradiction].
           subst l'. rewrite Text.compare_refl in E. discriminate.
        -- right. split; [reflexivity|]. right. exists d0. split; auto.
Qed.

Lemma select_snoc (t : list row) (r : row) :
  Sql.select_location_max_date (t ++ [r]) =
  Sql.group_step (location r) (change_date r) (Sql.select_location_max_date t).
Proof. unfold Sql.select_location_max_date. now rewrite fold_left_app. Qed.

(** The result of the aggregation: ascending keys, a key for every
    location of the table, and for every key the greatest date of its
    rows, which one of them carries. *)
Lemma select_correct (t : list row) :
  keys_ascending (Sql.select_location_max_date t) /\
  (forall r, In r t -> In (location r) (map fst (Sql.select_location_max_date t))) /\
  (forall k v, In (k, v) (Sql.select_location_max_date t) ->
     (exists r, In r t /\ location r = k /\ change_date r = v) /\
     (forall r, In r t -> location r = k -> text_le (change_date r) v)).
Proof.
  induction t as [|r t [IHs [IHk IHe]]] using rev_ind.
  - split; [constructor|]. split; [intros r []|intros k v []].
  - rewrite select_snoc.
    set (g := Sql.select_location_max_date t) in *.
    destruct (step_has_keys (location r) (change_date r) g) as [Hnew Hkeep].
    split; [now apply step_sorted|]. split.
    + intros r' Hr'. apply in_app_or in Hr'.
      destruct Hr' as [Hr'|[<-|[]]]; [apply Hkeep; auto|exact Hnew].
    + intros k v Hin. apply (step_entries _ _ _ _ _ IHs) in Hin.
      destruct Hin as [[Hne Hold]|[-> [[Hfresh ->]|[d0 [Hd0 ->]]]]].
      * destruct (IHe k v Hold) as [[r0 [Hr0 [Hl0 Hd0]]] Hmax]. split.
        -- exists r0. repeat split; auto. apply in_or_app. now left.
        -- intros r' Hr' Hl'. apply in_app_or in Hr'.
           destruct Hr' as [Hr'|[<-|[]]]; [now apply Hmax|congruence].
      * split.
        -- exists r. repeat split; auto. apply in_or_app. right. now left.
        -- intros r' Hr' Hl'. apply in_app_or in Hr'.
           destruct Hr' as [Hr'|[<-|[]]]; [|apply Text.le_refl].
           exfalso. apply Hfresh. rewrite <- Hl'. now apply IHk.
      * destruct (IHe _ _ Hd0) as [[r0 [Hr0 [Hl0 Hdate0]]] Hmax]. split.
        -- destruct (Text.max_text_cases d0 (change_date r)) as [->| ->].
           ++ exists r0. repeat split; auto. apply in_or_app. now left.
           ++ exists r. repeat split; auto. apply in_or_app. right. now left.
        -- intros r' Hr' Hl'. apply in_app_or in Hr'.
           destruct Hr' as [Hr'|[<-|[]]].
           ++ apply Text.le_trans with d0; [now apply Hmax|apply Text.max_text_l].
           ++ apply Text.max_text_r.
Qed.

Lemma ascending_nodup (g : list (string * string)) :
  keys_ascending g -> NoDup (map fst g).
Proof.
  induction g as [|e g IH]; simpl; intros Hs; [constructor|].
  apply head_lt in Hs. destruct Hs as [Hg Hlt].
  constructor; [|now apply IH].
  intros Hin. apply in_keys in Hin. destruct Hin as [v Hv].
  apply (lt_irrefl (fst e)). now apply (Hlt _ v).
Qed.

End Groups.

(** ** LatestPerLocation *)

Module Latest.

Lemma both_true (l d : string) (r : row) :
  Sql.location_and_date_are l d r = true <-> location r = l /\ change_date r = d.
Proof.
  unfold Sql.location_and_date_are.
  rewrite andb_true_iff, !String.eqb_eq. reflexivity.
Qed.

(** The per-group statement picks a row of the group with the highest id. *)
Lemma newest_picked (l d : string) (t : list row) (r : row) :
  newest_of l d t = Some r -> picked_for t (l, d) r.
Proof.
  unfold newest_of, picked_for. intros H.
  apply (OrderBy.fetchone_least _ Orderings.by_id_desc_antisym
           Orderings.by_id_desc_trans) in H.
  destruct H as [Hin Hmax]. apply filter_In in Hin. destruct Hin as [Hin Hb].
  apply both_true in Hb. destruct Hb as [Hl Hd]. simpl.
  repeat split; auto.
  intros r' Hr' Hl' Hd'. apply Orderings.by_id_desc_le, Hmax.
  apply filter_In. split; [exact Hr'|]. apply both_true. auto.
Qed.

(** It finds a row whenever the group has one. *)
Lemma newest_found (l d : string) (t : list row) :
  (exists r, In r t /\ location r = l /\ change_date r = d) ->
  exists r, newest_of l d t = Some r.
Proof.
  intros [r [Hr [Hl Hd]]]. apply OrderBy.fetchone_some. intros E.
  assert (In r (filter (Sql.location_and_date_are l d) t)) as Hin
    by (apply filter_In; split; [exact Hr|apply both_true; auto]).
  rewrite E in Hin. contradiction.
Qed.

(** Both loops over the groups run to the end and use the same rows. *)
Lemma loops (t : list row) (g : list (string * string)) :
  (forall k v, In (k, v) g ->
     exists r, In r t /\ location r = k /\ change_date r = v) ->
  exists recs,
    map (fun e => newest_of (fst e) (snd e) t) g = map Some recs /\
    last_change_lines t g = (map line_of recs, None) /\
    Forall2 (picked_for t) g recs.
Proof.
  induction g as [|[k v] g IH]; intros H.
  - exists []. repeat split. constructor.
  - destruct IH as [recs [Hmap [Hlines Hall]]].
    { intros k' v' Hin. apply H. now right. }
    destruct (newest_found k v t) as [r Hr]; [apply H; now left|].
    exists (r :: recs). simpl. rewrite Hr, Hmap, Hlines. simpl.
    repeat split.
    + unfold line_of. pose proof (newest_picked _ _ _ _ Hr) as [_ [Hl [Hd _]]].
      simpl in Hl, Hd. now rewrite Hl, Hd.
    + constructor; [now apply newest_picked|exact Hall].
Qed.

Lemma picked_locations (t : list row) (g : list (string * string)) (recs : list row) :
  Forall2 (picked_for t) g recs -> map location recs = map fst g.
Proof.
  induction 1 as [|e r g recs [_ [Hl _]] _ IH]; simpl; [reflexivity|].
  now rewrite Hl, IH.
Qed.

Lemma picked_from (t : list row) (g : list (string * string)) (recs : list row) (r : row) :
  Forall2 (picked_for t) g recs -> In r recs ->
  exists e, In e g /\ picked_for t e r.
Proof.
  induction 1 as [|e r0 g recs Hp _ IH]; simpl; [intros []|].
  intros [<-|Hin].
  - exists e. split; [now left|exact Hp].
  - destruct (IH Hin) as [e' [He' Hp']]. exists e'. split; [now right|exact Hp'].
Qed.

Lemma writerows_all (recs : list row) (file : csv) :
  writerows (map Some recs) file = (file ++ map cells recs, None).
Proof.
  revert file. induction recs as [|r recs IH]; intros file; simpl.
  - now rewrite app_nil_r.
  - rewrite IH, <- app_assoc. reflexivity.
Qed.

End Latest.

(** C8. [print_last_change_per_location] and
    [export_last_changes_to_csv] work on the same records, one per
    distinct location of the table: no location appears twice, every
    location of the table appears, and the record of a location is the
    one with the greatest change_date of that location (the highest id
    among those).  Neither loop fails.  On an empty table there is no
    record: the first prints "no records found", the second writes no
    file. *)
Theorem last_change_per_location_correct (db : store) :
  exists recs,
    export_last_results db = map Some recs /\
    print_last_change_per_location db =
      (match recs with
       | [] => NoRecordsFound
       | _ => LastChanges (map line_of recs)
       end, None) /\
    export_last_changes_to_csv db =
      match recs with
      | [] => (None, Printed NoRecordsToExport)
      | _ => (Some (header :: map cells recs), Printed ExportedLast)
      end /\
    NoDup (map location recs) /\
    (forall l, In l (map location recs) <-> has_location l db) /\
    Forall (latest_of db) recs /\
    (recs = [] <-> rows db = []).
Proof.
  destruct (Groups.select_correct (rows db)) as [Hs [Hk He]].
  destruct (Latest.loops (rows db) (Sql.select_location_max_date (rows db)))
    as [recs [Hmap [Hlines Hall]]].
  { intros k v Hin. now apply He. }
  pose proof (Latest.picked_locations _ _ _ Hall) as Hlocs.
  exists recs.
  split; [exact Hmap|].
  split.
  { unfold print_last_change_per_location.
    revert Hlines. clear - Hall.
    destruct Hall; intros Hlines; [reflexivity|].
    cbv beta iota. rewrite Hlines. reflexivity. }
  split.
  { unfold export_last_changes_to_csv, export_last_results. rewrite Hmap.
    destruct recs as [|r recs]; [reflexivity|].
    change (map Some (r :: recs)) with (Some r :: map Some recs).
    cbv beta iota.
    change (Some r :: map Some recs) with (map Some (r :: recs)).
    rewrite Latest.writerows_all. reflexivity. }
  split.
  { rewrite Hlocs. now apply Groups.ascending_nodup. }
  split.
  { intros l. rewrite Hlocs. split.
    - intros Hin. apply Groups.in_keys in Hin. destruct Hin as [v Hv].
      destruct (He l v Hv) as [[r [Hr [Hl _]]] _]. exists r. auto.
    - intros [r [Hr <-]]. now apply Hk. }
  split.
  { apply Forall_forall. intros r Hr.
    destruct (Latest.picked_from _ _ _ _ Hall Hr) as [[k v] [Hin [Hrin [Hl [Hd Hid]]]]].
    simpl in Hl, Hd. destruct (He k v Hin) as [_ Hmax].
    unfold latest_of. split; [exact Hrin|]. split.
    - intros r' Hr' Hl'. rewrite Hd. apply Hmax; congruence.
    - intros r' Hr' Hl' Hd'. apply Hid; simpl; congruence. }
  split.
  - intros ->. inversion Hall as [Hg|]; subst.
    destruct (rows db) as [|r t] eqn:E; [reflexivity|].
    exfalso. assert (In (location r) (map fst (Sql.select_location_max_date (r :: t))))
      as Hin by (apply Hk; now left).
    rewrite <- Hg in Hin. contradiction.
  - intros E. rewrite E in Hall. inversion Hall. reflexivity.
Qed.

(** ** The tie on change_date *)

(** C1. Two records of one location with the same change_date: the
    latest record of the location is the one inserted last (id 2,
    ABC999), and [print_last_change_per_location] and
    [export_last_changes_to_csv] report it; [check_last_filter_change]
    orders by change_date alone and reports the one inserted first
    (id 1, ABC123). *)
Theorem check_last_filter_change_on_tie :
  latest_of Runs.kitchen2 (mkRow 2 "Kitchen" "20x20" "ABC999" "2024-01-01") /\
  print_last_change_per_location Runs.kitchen2 =
    (LastChanges [("Kitchen", "2024-01-01", "ABC999")], None) /\
  export_last_results Runs.kitchen2 =
    [Some (mkRow 2 "Kitchen" "20x20" "ABC999" "2024-01-01")] /\
  last_filter_change_row (Some "Kitchen") Runs.kitchen2 =
    Some (mkRow 1 "Kitchen" "20x20" "ABC123" "2024-01-01") /\
  check_last_filter_change (Some "Kitchen") Runs.kitchen2 =
    LastChanged (Some "Kitchen") "2024-01-01" "ABC123".
Proof.
  split; [|repeat split].
  unfold latest_of. split; [right; now left|].
  split.
  - intros r' [<-|[<-|[]]] _; discriminate.
  - intros r' [<-|[<-|[]]] _ _; discriminate.
Qed.

(** ** Ids *)

Module Ids.

Lemma set_columns_id (l s p d : Py.arg) (r : row) :
  id (set_columns l s p d r) = id r.
Proof. now destruct r. Qed.

Lemma sorted_snoc (t : list row) (x : row) :
  StronglySorted (fun a b => id a < id b) t ->
  Forall (fun a => id a < id x) t ->
  StronglySorted (fun a b => id a < id b) (t ++ [x]).
Proof.
  induction 1 as [|r t Hs IH Hall]; simpl; intros Hx.
  - repeat constructor.
  - apply Forall_cons_iff in Hx. destruct Hx as [Hr Ht].
    constructor; [now apply IH|].
    apply Forall_app. split; [exact Hall|]. now repeat constructor.
Qed.

Lemma sorted_filter (f : row -> bool) (t : list row) :
  StronglySorted (fun a b => id a < id b) t ->
  StronglySorted (fun a b => id a < id b) (filter f t).
Proof.
  induction 1 as [|r t Hs IH Hall]; simpl; [constructor|].
  destruct (f r); [|exact IH].
  constructor; [exact IH|].
  rewrite Forall_forall in *. intros x Hx.
  apply filter_In in Hx. now apply Hall.
Qed.

Lemma sorted_map (f : row -> row) (t : list row) :
  (forall r, id (f r) = id r) ->
  StronglySorted (fun a b => id a < id b) t ->
  StronglySorted (fun a b => id a < id b) (map f t).
Proof.
  intros Hf. induction 1 as [|r t Hs IH Hall]; simpl; [constructor|].
  constructor; [exact IH|].
  rewrite Forall_forall in *. intros x Hx.
  apply in_map_iff in Hx. destruct Hx as [y [<- Hy]].
  rewrite !Hf. now apply Hall.
Qed.

Lemma step (o : op) (db : store) : well_formed db -> well_formed (run_op o db).
Proof.
  unfold well_formed. intros [Hs [Hb H0]].
  destruct o as [now l s p d|i l s p d|i]; simpl.
  - destruct (CreateFacts.effect now l s p d db)
      as [->|[lv [sv [pv [dv [_ [_ [_ [_ [_ ->]]]]]]]]]]; [auto|].
    simpl. split; [|split; [|lia]].
    + apply sorted_snoc; [exact Hs|].
      eapply Forall_impl; [|exact Hb]. simpl. intros r Hr. lia.
    + apply Forall_app. split.
      * eapply Forall_impl; [|exact Hb]. simpl. intros r Hr. lia.
      * repeat constructor; simpl; lia.
  - unfold edit_filter_record.
    destruct (Sql.binds i); [|auto].
    destruct (select_by_id i db) as [found|]; [|auto].
    destruct (any_update l s p d); [|auto].
    simpl. split; [|split; [|exact H0]].
    + apply sorted_map; [|exact Hs].
      intros x. destruct (Sql.id_is i x); [apply set_columns_id|reflexivity].
    + rewrite Forall_forall in *. intros x Hx.
      apply in_map_iff in Hx. destruct Hx as [y [<- Hy]].
      destruct (Sql.id_is i y); [rewrite set_columns_id|]; now apply Hb.
  - unfold delete_filter_record.
    destruct (Sql.binds i); [|auto].
    destruct (select_by_id i db) as [found|]; [|auto].
    simpl. split; [|split; [|exact H0]].
    + now apply sorted_filter.
    + rewrite Forall_forall in *. intros x Hx.
      apply filter_In in Hx. now apply Hb.
Qed.

(** Every reachable table is well formed. *)
Lemma reachable_well_formed (db : store) : reachable db -> well_formed db.
Proof.
  intros [ops ->].
  assert (well_formed (initialize_database None)) as H0.
  { unfold well_formed; simpl. repeat split; try constructor; discriminate. }
  revert H0. generalize (initialize_database None).
  induction ops as [|o ops IH]; intros db H; [exact H|].
  rewrite Preserved.run_ops_cons. apply IH. now apply step.
Qed.

(** In a well-formed table an id names one record. *)
Lemma unique (db : store) (r r' : row) :
  well_formed db -> In r (rows db) -> In r' (rows db) -> id r = id r' -> r = r'.
Proof.
  intros [Hs _]. induction Hs as [|x t Hs IH Hall]; simpl; [intros []|].
  rewrite Forall_forall in Hall.
  intros [<-|Hr] [<-|Hr'] Hid; auto.
  - apply Hall in Hr'. lia.
  - apply Hall in Hr. lia.
Qed.

End Ids.

(** * Further properties of the code *)

(** ** Dates as TEXT *)

Module ClockOrder.

Lemma digit_compare (m n : nat) :
  Ascii.compare (Py.digit m) (Py.digit n) = Nat.compare (m mod 10) (n mod 10).
Proof.
  unfold Ascii.compare, Py.digit, ascii_of_nat.
  rewrite !N_ascii_embedding by (zify; Z.to_euclidean_division_equations; lia).
  destruct (Nat.compare_spec (m mod 10) (n mod 10)) as [H|H|H].
  - rewrite H. apply N.compare_refl.
  - apply N.compare_lt_iff. lia.
  - apply N.compare_gt_iff. lia.
Qed.

(** Comparing digit by digit is comparing the numbers. *)
Lemma lex_digits (h l h' l' : nat) (K : comparison) :
  match Nat.compare h h' with
  | Eq => match Nat.compare (l mod 10) (l' mod 10) with Eq => K | c => c end
  | c => c
  end =
  match Nat.compare (10 * h + l mod 10) (10 * h' + l' mod 10) with
  | Eq => K
  | c => c
  end.
Proof.
  pose proof (Nat.mod_upper_bound l 10 ltac:(discriminate)) as Hl.
  pose proof (Nat.mod_upper_bound l' 10 ltac:(discriminate)) as Hl'.
  destruct (Nat.compare_spec h h');
    destruct (Nat.compare_spec (l mod 10) (l' mod 10));
    destruct (Nat.compare_spec (10 * h + l mod 10) (10 * h' + l' mod 10));
    try reflexivity; exfalso; lia.
Qed.

Lemma four_digits (y : nat) :
  Z.of_nat y <= 9999 ->
  (y = 1000 * ((y / 1000) mod 10) + 100 * ((y / 100) mod 10)
       + 10 * ((y / 10) mod 10) + y mod 10)%nat.
Proof. intros H. zify. Z.to_euclidean_division_equations. lia. Qed.

Lemma two_digits (y : nat) :
  Z.of_nat y <= 99 -> (y = 10 * ((y / 10) mod 10) + y mod 10)%nat.
Proof. intros H. zify. Z.to_euclidean_division_equations. lia. Qed.

Lemma date_compare_key (a b : Py.datetime) :
  four_digit_year a -> four_digit_year b ->
  date_compare a b =
  Nat.compare ((Py.year a * 100 + Py.month a) * 100 + Py.day a)
              ((Py.year b * 100 + Py.month b) * 100 + Py.day b).
Proof.
  intros [Hya [Hma Hda]] [Hyb [Hmb Hdb]]. unfold date_compare.
  destruct (Nat.compare_spec (Py.year a) (Py.year b)) as [Hy|Hy|Hy];
  destruct (Nat.compare_spec (Py.month a) (Py.month b)) as [Hm|Hm|Hm];
  destruct (Nat.compare_spec (Py.day a) (Py.day b)) as [Hd|Hd|Hd];
  symmetry;
  first [ apply Nat.compare_eq_iff; lia
        | apply Nat.compare_lt_iff; lia
        | apply Nat.compare_gt_iff; lia ].
Qed.

End ClockOrder.

(** X1. The default change_date sorts as the calendar does: for two
    clock readings in the range of [datetime], comparing the strings
    that [strftime("%Y-%m-%d")] gives for them, as SQLite compares TEXT,
    gives the chronological order of the two dates.  So [ORDER BY
    change_date] and [MAX(change_date)] over defaulted dates are by
    date. *)
Theorem strftime_orders_dates (a b : Py.datetime) :
  four_digit_year a -> four_digit_year b ->
  String.compare (Py.strftime_Ymd a) (Py.strftime_Ymd b) = date_compare a b.
Proof.
  intros Ha Hb. rewrite (ClockOrder.date_compare_key a b Ha Hb).
  destruct Ha as [Hya [Hma Hda]], Hb as [Hyb [Hmb Hdb]].
  unfold Py.strftime_Ymd, Py.pad4, Py.pad2.
  cbn [append String.compare].
  rewrite !ClockOrder.digit_compare.
  change (Ascii.compare "-"%char "-"%char) with Eq. cbv iota.
  rewrite !ClockOrder.lex_digits.
  match goal with
  | |- match ?c with _ => _ end = _ =>
      transitivity c; [destruct c; reflexivity|]
  end.
  pose proof (ClockOrder.four_digits (Py.year a) (proj2 Hya)) as Ea.
  pose proof (ClockOrder.four_digits (Py.year b) (proj2 Hyb)) as Eb.
  pose proof (ClockOrder.two_digits (Py.month a) ltac:(lia)) as Fa.
  pose proof (ClockOrder.two_digits (Py.month b) ltac:(lia)) as Fb.
  pose proof (ClockOrder.two_digits (Py.day a) ltac:(lia)) as Ga.
  pose proof (ClockOrder.two_digits (Py.day b) ltac:(lia)) as Gb.
  f_equal; lia.
Qed.

Lemma strftime_orders_dates_witness :
  four_digit_year (Py.mkDatetime 2023 12 31) /\
  four_digit_year Runs.jan1 /\
  String.compare (Py.strftime_Ymd (Py.mkDatetime 2023 12 31))
                 (Py.strftime_Ymd Runs.jan1) = Lt.
Proof.
  assert (four_digit_year (Py.mkDatetime 2023 12 31)) as Ha
    by (unfold four_digit_year; simpl; lia).
  assert (four_digit_year Runs.jan1) as Hb
    by (unfold four_digit_year; simpl; lia).
  split; [exact Ha|]. split; [exact Hb|].
  rewrite (strftime_orders_dates _ _ Ha Hb). reflexivity.
Defined.

(** ** Ids over a history *)

Module History.

Lemma run_ops_snoc (ops : list op) (o : op) (db : store) :
  run_ops (ops ++ [o]) db = run_op o (run_ops ops db).
Proof. unfold run_ops. now rewrite fold_left_app. Qed.

(** One call never lowers the counter, and a row it leaves in the table
    has the id of a row that was there or the next id of the counter. *)
Lemma step_ids (o : op) (db : store) :
  seq db <= seq (run_op o db) /\
  forall r, In r (rows (run_op o db)) -> has_id (id r) db \/ id r = seq db + 1.
Proof.
  destruct o as [now l s p d|i l s p d|i]; simpl.
  - destruct (CreateFacts.effect now l s p d db)
      as [->|[lv [sv [pv [dv [_ [_ [_ [_ [_ ->]]]]]]]]]]; simpl.
    + split; [lia|]. intros r Hr. left. now exists r.
    + split; [lia|]. intros r Hr. apply in_app_or in Hr.
      destruct Hr as [Hr|[<-|[]]]; [left; now exists r|now right].
  - unfold edit_filter_record.
    destruct (Sql.binds i);
      [destruct (select_by_id i db) as [found|];
         [destruct (any_update l s p d)|]|]; simpl;
      (split; [lia|]); intros r Hr; left.
    + apply in_map_iff in Hr. destruct Hr as [r0 [<- Hr0]].
      exists r0. split; [exact Hr0|].
      destruct (Sql.id_is i r0); [now rewrite Ids.set_columns_id|reflexivity].
    + now exists r.
    + now exists r.
    + now exists r.
  - split.
    + unfold delete_filter_record.
      destruct (Sql.binds i); [destruct (select_by_id i db)|]; simpl; lia.
    + intros r Hr. apply DeleteFacts.rows_kept in Hr. left. now exists r.
Qed.

End History.

(** X2. In every state that creates, updates and deletes bring a fresh
    database to, the rows are in strictly ascending order of id, every id
    is positive and at most the AUTOINCREMENT counter, and an id names
    one record: two rows with the same id are the same row. *)
Theorem reachable_ids_distinct (db : store) :
  reachable db ->
  well_formed db /\
  forall r r', In r (rows db) -> In r' (rows db) -> id r = id r' -> r = r'.
Proof.
  intros H. apply Ids.reachable_well_formed in H.
  split; [exact H|]. intros r r'. now apply Ids.unique.
Qed.

Lemma reachable_ids_distinct_witness :
  reachable Runs.kitchen2 /\ well_formed Runs.kitchen2.
Proof.
  assert (reachable Runs.kitchen2) as H by (eexists; reflexivity).
  split; [exact H|]. exact (proj1 (reachable_ids_distinct _ H)).
Defined.

(** X3. Ids are never reused.  An id that the counter has passed and
    that no record has (the id of a deleted record) is the id of no
    record after any further creates, updates and deletes; the counter
    itself never goes down. *)
Theorem deleted_ids_never_return (db : store) (i : Z) (ops : list op) :
  i <= seq db -> ~ has_id i db ->
  ~ has_id i (run_ops ops db) /\ seq db <= seq (run_ops ops db).
Proof.
  intros Hi Hno.
  induction ops as [|o ops [IHno IHseq]] using rev_ind; [split; [exact Hno|simpl; lia]|].
  rewrite History.run_ops_snoc.
  destruct (History.step_ids o (run_ops ops db)) as [Hseq Hrows].
  split; [|lia].
  intros [r [Hr Hid]]. destruct (Hrows r Hr) as [Hold|Hnew].
  - apply IHno. now rewrite <- Hid.
  - lia.
Qed.

Lemma deleted_ids_never_return_witness :
  1 <= seq (fst (delete_filter_record 1 Runs.kitchen2)) /\
  ~ has_id 1 (fst (delete_filter_record 1 Runs.kitchen2)) /\
  ~ has_id 1 (run_ops
      [Create Runs.jan1 (Some "Attic") (Some "16x25") (Some "XYZ") None]
      (fst (delete_filter_record 1 Runs.kitchen2))).
Proof.
  assert (1 <= seq (fst (delete_filter_record 1 Runs.kitchen2))) as H1
    by (simpl; lia).
  assert (~ has_id 1 (fst (delete_filter_record 1 Runs.kitchen2))) as H2
    by (now apply DeleteFacts.gone).
  split; [exact H1|]. split; [exact H2|].
  exact (proj1 (deleted_ids_never_return _ 1
    [Create Runs.jan1 (Some "Attic") (Some "16x25") (Some "XYZ") None] H1 H2)).
Defined.

(** ** Lookups after a write *)

Module Lookup.

Lemma filter_nothing {A : Type} (f : A -> bool) (t : list A) :
  (forall x, In x t -> f x = false) -> filter f t = [].
Proof.
  induction t as [|x t IH]; simpl; intros H; [reflexivity|].
  rewrite (H x) by now left. apply IH. intros y Hy. apply H. now right.
Qed.

Lemma filter_everything {A : Type} (f : A -> bool) (t : list A) :
  (forall x, In x t -> f x = true) -> filter f t = t.
Proof.
  induction t as [|x t IH]; simpl; intros H; [reflexivity|].
  rewrite (H x) by now left. f_equal. apply IH. intros y Hy. apply H. now right.
Qed.

(** The next id is the id of no row of a well-formed table. *)
Lemma next_id_is_free (db : store) (r : row) :
  well_formed db -> In r (rows db) -> Sql.id_is (seq db + 1) r = false.
Proof.
  intros [_ [Hb _]] Hr. rewrite Forall_forall in Hb. apply Hb in Hr.
  apply ById.id_is_false. lia.
Qed.

(** The date of the inserted row, in the terms of the statements. *)
Lemma inserted_date (now : Py.datetime) (lv sv pv : string) (d : Py.arg) (db : store) :
  seq db < Sql.max_rowid ->
  exists dv,
    stored_date now d dv /\
    add_filter_change now (Some lv) (Some sv) (Some pv) d db =
      (mkStore (rows db ++ [mkRow (seq db + 1) lv sv pv dv]) (seq db + 1),
       Printed (Recorded lv dv)).
Proof.
  intros Hseq.
  destruct (CreateFacts.inserted now lv sv pv d db Hseq) as [dv [Hd Hadd]].
  exists dv. split; [|exact Hadd].
  unfold stored_date. destruct (Py.truthy d) eqn:E.
  - left. apply Args.truthy_supplies in E. destruct E as [v [Hv Hne]].
    subst d. injection Hd as <-. split; [reflexivity|exact Hne].
  - right. apply Args.truthy_omitted in E. injection Hd as <-. auto.
Qed.

Lemma assign_omitted (a : Py.arg) (old : string) : omitted a -> assign a old = old.
Proof. intros H. now apply (proj2 (Args.assign_field_after a old)). Qed.

Lemma assign_twice (a : Py.arg) (old : string) :
  assign a (assign a old) = assign a old.
Proof.
  unfold assign. destruct a as [v|]; [|reflexivity].
  destruct (Py.truthy (Some v)); reflexivity.
Qed.

Lemma set_columns_omitted (l s p d : Py.arg) (r : row) :
  any_update l s p d = false -> set_columns l s p d r = r.
Proof.
  intros H. apply Args.any_update_false in H. destruct H as [Hl [Hs [Hp Hd]]].
  destruct r; simpl. now rewrite !assign_omitted.
Qed.

Lemma set_columns_twice (l s p d : Py.arg) (r : row) :
  set_columns l s p d (set_columns l s p d r) = set_columns l s p d r.
Proof. destruct r; simpl. now rewrite !assign_twice. Qed.

Lemma edited_id (i : Z) (l s p d : Py.arg) (r : row) :
  id (edited i l s p d r) = id r.
Proof.
  unfold edited.
  destruct (Sql.binds i && Sql.id_is i r); [apply Ids.set_columns_id|reflexivity].
Qed.

Lemma edited_twice (i : Z) (l s p d : Py.arg) (r : row) :
  edited i l s p d (edited i l s p d r) = edited i l s p d r.
Proof.
  unfold edited. destruct (Sql.binds i); simpl; [|reflexivity].
  destruct (Sql.id_is i r) eqn:E; [|now rewrite E].
  assert (Sql.id_is i (set_columns l s p d r) = true) as ->.
  { apply ById.id_is_true. rewrite Ids.set_columns_id. now apply ById.id_is_true. }
  apply set_columns_twice.
Qed.

Lemma edited_bound (i : Z) (l s p d : Py.arg) (r : row) :
  Sql.binds i = true ->
  edited i l s p d r = if Sql.id_is i r then set_columns l s p d r else r.
Proof. intros H. unfold edited. now rewrite H. Qed.

Lemma edited_unbound (i : Z) (l s p d : Py.arg) (r : row) :
  Sql.binds i = false -> edited i l s p d r = r.
Proof. intros H. unfold edited. now rewrite H. Qed.

Lemma filter_edited (i j : Z) (l s p d : Py.arg) (t : list row) :
  filter (Sql.id_is j) (map (edited i l s p d) t) =
  map (edited i l s p d) (filter (Sql.id_is j) t).
Proof.
  induction t as [|r t IH]; simpl; [reflexivity|].
  assert (Sql.id_is j (edited i l s p d r) = Sql.id_is j r) as ->
    by (unfold Sql.id_is; now rewrite edited_id).
  destruct (Sql.id_is j r); simpl; now rewrite IH.
Qed.

(** The rows of the table after an edit. *)
Lemma rows_after_edit (i : Z) (l s p d : Py.arg) (db : store) :
  rows (fst (edit_filter_record i l s p d db)) = map (edited i l s p d) (rows db).
Proof.
  unfold edit_filter_record.
  destruct (Sql.binds i) eqn:B.
  2:{ simpl. symmetry. rewrite <- (map_id (rows db)) at 2. apply map_ext.
      intros r. now apply edited_unbound. }
  destruct (select_by_id i db) as [found|] eqn:E.
  - destruct (any_update l s p d) eqn:U.
    + simpl. apply map_ext. intros r. now rewrite edited_bound.
    + simpl. symmetry. rewrite <- (map_id (rows db)) at 2. apply map_ext.
      intros r. rewrite edited_bound by exact B.
      destruct (Sql.id_is i r); [|reflexivity].
      now apply set_columns_omitted.
  - simpl. apply ById.select_none in E.
    symmetry. rewrite <- (map_id (rows db)) at 2. apply map_ext_in.
    intros r Hr. rewrite edited_bound by exact B.
    destruct (Sql.id_is i r) eqn:Er; [|reflexivity].
    apply ById.id_is_true in Er. exfalso. apply E. now exists r.
Qed.

Lemma select_after_edit (i j : Z) (l s p d : Py.arg) (db : store) :
  select_by_id j (fst (edit_filter_record i l s p d db)) =
  option_map (edited i l s p d) (select_by_id j db).
Proof.
  unfold select_by_id. rewrite rows_after_edit, filter_edited.
  destruct (filter (Sql.id_is j) (rows db)); reflexivity.
Qed.

Lemma selected_id (j : Z) (db : store) (r : row) :
  select_by_id j db = Some r -> In r (rows db) /\ id r = j.
Proof.
  unfold select_by_id. intros H.
  assert (In r (filter (Sql.id_is j) (rows db))) as Hin
    by (destruct (filter (Sql.id_is j) (rows db));
        [discriminate|injection H as ->; now left]).
  apply filter_In in Hin. destruct Hin as [Hin Hid].
  apply ById.id_is_true in Hid. auto.
Qed.

End Lookup.

(** X4. A record that [add_filter_change] stored can be read back: in a
    well-formed table with a rowid left, after a create the lookup of
    the new id (one more than the counter) gives the record with exactly
    the location, size and product_number of the call and the stored
    date (the supplied one, or today's), and the lookup of every other
    id gives what it gave before. *)
Theorem create_then_select_by_id
    (now : Py.datetime) (lv sv pv : string) (d : Py.arg) (db : store) :
  well_formed db -> seq db < Sql.max_rowid ->
  exists dv,
    stored_date now d dv /\
    select_by_id (seq db + 1)
      (fst (add_filter_change now (Some lv) (Some sv) (Some pv) d db)) =
      Some (mkRow (seq db + 1) lv sv pv dv) /\
    forall j, j <> seq db + 1 ->
      select_by_id j (fst (add_filter_change now (Some lv) (Some sv) (Some pv) d db)) =
      select_by_id j db.
Proof.
  intros Hwf Hseq.
  destruct (Lookup.inserted_date now lv sv pv d db Hseq) as [dv [Hdv Hadd]].
  exists dv. split; [exact Hdv|]. rewrite Hadd. unfold select_by_id.
  cbn [fst rows]. split; [|intros j Hj]; rewrite filter_app; cbn [filter].
  - rewrite Lookup.filter_nothing
      by (intros r Hr; now apply Lookup.next_id_is_free).
    assert (Sql.id_is (seq db + 1) (mkRow (seq db + 1) lv sv pv dv) = true) as ->
      by (now apply ById.id_is_true).
    reflexivity.
  - assert (Sql.id_is j (mkRow (seq db + 1) lv sv pv dv) = false) as ->
      by (apply ById.id_is_false; simpl; congruence).
    now rewrite app_nil_r.
Qed.

Lemma create_then_select_by_id_witness :
  well_formed Runs.kitchen2 /\ seq Runs.kitchen2 < Sql.max_rowid /\
  exists dv,
    select_by_id 3
      (fst (add_filter_change Runs.jan1 (Some "Attic") (Some "16x25") (Some "XYZ")
                              None Runs.kitchen2)) =
      Some (mkRow 3 "Attic" "16x25" "XYZ" dv).
Proof.
  assert (well_formed Runs.kitchen2) as Hwf
    by (apply Ids.reachable_well_formed; eexists; reflexivity).
  assert (seq Runs.kitchen2 < Sql.max_rowid) as Hseq by reflexivity.
  split; [exact Hwf|]. split; [exact Hseq|].
  destruct (create_then_select_by_id Runs.jan1 "Attic" "16x25" "XYZ" None
              Runs.kitchen2 Hwf Hseq) as [dv [_ [H _]]].
  exists dv. exact H.
Defined.

(** X5. What a lookup sees after [edit_filter_record]: the lookup of the
    edited id gives the record it gave before with the SET clause
    applied (nothing, when the id is missing); when the id does not fit
    an SQLite INTEGER the call raises and the lookup gives what it gave
    before.  The lookup of every other id is unchanged. *)
Theorem edit_then_select_by_id (i : Z) (l s p d : Py.arg) (db : store) :
  select_by_id i (fst (edit_filter_record i l s p d db)) =
    (if Sql.binds i
     then option_map (set_columns l s p d) (select_by_id i db)
     else select_by_id i db) /\
  forall j, j <> i ->
    select_by_id j (fst (edit_filter_record i l s p d db)) = select_by_id j db.
Proof.
  split.
  - rewrite Lookup.select_after_edit.
    destruct (Sql.binds i) eqn:B;
      destruct (select_by_id i db) as [r|] eqn:E; try reflexivity; simpl.
    + apply Lookup.selected_id in E. destruct E as [_ E].
      rewrite Lookup.edited_bound by exact B.
      apply ById.id_is_true in E. now rewrite E.
    + now rewrite Lookup.edited_unbound.
  - intros j Hj. rewrite Lookup.select_after_edit.
    destruct (select_by_id j db) as [r|] eqn:E; [|reflexivity]. simpl.
    apply Lookup.selected_id in E. destruct E as [_ E].
    unfold edited.
    assert (Sql.id_is i r = false) as -> by (apply ById.id_is_false; congruence).
    now rewrite andb_false_r.
Qed.

Lemma edit_then_select_by_id_witness :
  2 <> 1 /\
  select_by_id 1
    (fst (edit_filter_record 1 None (Some "16x25") None None Runs.kitchen2)) =
    Some (mkRow 1 "Kitchen" "16x25" "ABC123" "2024-01-01") /\
  select_by_id 2
    (fst (edit_filter_record 1 None (Some "16x25") None None Runs.kitchen2)) =
    select_by_id 2 Runs.kitchen2.
Proof.
  assert (2 <> 1) as H by discriminate.
  split; [exact H|]. split.
  - rewrite (proj1 (edit_then_select_by_id 1 None (Some "16x25") None None
                      Runs.kitchen2)).
    reflexivity.
  - exact (proj2 (edit_then_select_by_id 1 None (Some "16x25") None None
                    Runs.kitchen2) 2 H).
Defined.

(** X6. Editing twice with the same arguments is editing once: the
    second call leaves the database that the first produced and has the
    same outcome (the same message, or the same exception). *)
Theorem edit_filter_record_idempotent (i : Z) (l s p d : Py.arg) (db : store) :
  edit_filter_record i l s p d (fst (edit_filter_record i l s p d db)) =
  edit_filter_record i l s p d db.
Proof.
  destruct (Sql.binds i) eqn:B.
  2:{ rewrite (EditFacts.edit_unbound i l s p d db B). now apply EditFacts.edit_unbound. }
  pose proof (Lookup.select_after_edit i i l s p d db) as Hsel.
  unfold edit_filter_record in *. rewrite B in *.
  destruct (select_by_id i db) as [found|] eqn:E.
  - destruct (any_update l s p d) eqn:U; cbn [fst] in *.
    + rewrite Hsel. cbn [option_map rows seq]. f_equal. f_equal.
      rewrite map_map. apply map_ext. intros r.
      rewrite <- (Lookup.edited_bound i l s p d r B).
      rewrite <- (Lookup.edited_bound i l s p d (edited i l s p d r) B).
      apply Lookup.edited_twice.
    + now rewrite E.
  - cbn [fst]. now rewrite E.
Qed.

(** ** Deleting *)

Module DeleteMore.

Lemma rows_after_delete (i : Z) (db : store) :
  Sql.binds i = true ->
  rows (fst (delete_filter_record i db)) =
  filter (fun r => negb (Sql.id_is i r)) (rows db).
Proof.
  intros Hb. unfold delete_filter_record. rewrite Hb.
  destruct (select_by_id i db) eqn:E; [reflexivity|]. simpl.
  apply ById.select_none in E. symmetry. apply Lookup.filter_everything.
  intros r Hr. apply negb_true_iff, ById.id_is_false.
  intros Hid. apply E. now exists r.
Qed.

Lemma seq_after_delete (i : Z) (db : store) :
  seq (fst (delete_filter_record i db)) = seq db.
Proof.
  unfold delete_filter_record.
  destruct (Sql.binds i); [now destruct (select_by_id i db)|reflexivity].
Qed.

(** The next id of a counter that has a rowid left is one the binding
    accepts. *)
Lemma next_id_binds (db : store) :
  0 <= seq db -> seq db < Sql.max_rowid -> Sql.binds (seq db + 1) = true.
Proof.
  intros H0 Hmax. unfold Sql.binds. apply andb_true_iff.
  split; apply Z.leb_le; unfold Sql.min_integer, Sql.max_rowid in *; lia.
Qed.

Lemma filter_other (i j : Z) (t : list row) :
  j <> i ->
  filter (Sql.id_is j) (filter (fun r => negb (Sql.id_is i r)) t) =
  filter (Sql.id_is j) t.
Proof.
  intros Hj. induction t as [|r t IH]; simpl; [reflexivity|].
  destruct (Sql.id_is i r) eqn:Ei; simpl.
  - apply ById.id_is_true in Ei.
    assert (Sql.id_is j r = false) as -> by (apply ById.id_is_false; congruence).
    exact IH.
  - now rewrite IH.
Qed.

(** In a table with strictly ascending ids, exactly one row has a given
    id that is present. *)
Lemma one_row_less (i : Z) (t : list row) :
  StronglySorted (fun a b => id a < id b) t ->
  (exists r, In r t /\ id r = i) ->
  List.length t = S (List.length (filter (fun r => negb (Sql.id_is i r)) t)).
Proof.
  induction 1 as [|x t Hs IH Hall]; intros [r [Hr Hid]]; [contradiction|].
  simpl. rewrite Forall_forall in Hall.
  destruct (Sql.id_is i x) eqn:Ex; simpl.
  - apply ById.id_is_true in Ex. f_equal. f_equal. symmetry.
    apply Lookup.filter_everything. intros y Hy.
    apply negb_true_iff, ById.id_is_false. apply Hall in Hy. lia.
  - f_equal. apply IH. exists r. split; [|exact Hid].
    destruct Hr as [->|Hr]; [|exact Hr].
    apply ById.id_is_false in Ex. contradiction.
Qed.

End DeleteMore.

(** X7. In a well-formed table, [delete_filter_record] on an id that is
    present removes exactly one row when the id fits an SQLite INTEGER,
    and raises and removes nothing when it does not; in both cases the
    AUTOINCREMENT counter stays where it was and the lookup of every
    other id gives what it gave before. *)
Theorem delete_removes_one_record (db : store) (i : Z) :
  well_formed db -> has_id i db ->
  List.length (rows db) =
    (if Sql.binds i
     then S (List.length (rows (fst (delete_filter_record i db))))
     else List.length (rows (fst (delete_filter_record i db)))) /\
  seq (fst (delete_filter_record i db)) = seq db /\
  forall j, j <> i ->
    select_by_id j (fst (delete_filter_record i db)) = select_by_id j db.
Proof.
  intros [Hs _] Hid.
  split; [|split; [apply DeleteMore.seq_after_delete|]].
  - destruct (Sql.binds i) eqn:B.
    + rewrite DeleteMore.rows_after_delete by exact B.
      now apply DeleteMore.one_row_less.
    + now rewrite (DeleteFacts.delete_unbound i db B).
  - intros j Hj. destruct (Sql.binds i) eqn:B.
    + unfold select_by_id. rewrite DeleteMore.rows_after_delete by exact B.
      now rewrite DeleteMore.filter_other.
    + now rewrite (DeleteFacts.delete_unbound i db B).
Qed.

Lemma delete_removes_one_record_witness :
  well_formed Runs.kitchen2 /\ has_id 1 Runs.kitchen2 /\
  List.length (rows Runs.kitchen2) =
    S (List.length (rows (fst (delete_filter_record 1 Runs.kitchen2)))).
Proof.
  assert (well_formed Runs.kitchen2) as Hwf
    by (apply Ids.reachable_well_formed; eexists; reflexivity).
  assert (has_id 1 Runs.kitchen2) as Hid
    by (eexists; split; [left; reflexivity|reflexivity]).
  split; [exact Hwf|]. split; [exact Hid|].
  exact (proj1 (delete_removes_one_record Runs.kitchen2 1 Hwf Hid)).
Defined.

(** X8. A create followed by the delete of the id it was given puts the
    rows of the table back as they were; the counter is not put back, so
    the id is spent. *)
Theorem create_then_delete_restores_rows
    (now : Py.datetime) (lv sv pv : string) (d : Py.arg) (db : store) :
  well_formed db -> seq db < Sql.max_rowid ->
  delete_filter_record (seq db + 1)
    (fst (add_filter_change now (Some lv) (Some sv) (Some pv) d db)) =
  (mkStore (rows db) (seq db + 1), Printed (Deleted (seq db + 1))).
Proof.
  intros Hwf Hseq.
  assert (Sql.binds (seq db + 1) = true) as Hb
    by (apply DeleteMore.next_id_binds; [apply Hwf|exact Hseq]).
  destruct (Lookup.inserted_date now lv sv pv d db Hseq) as [dv [_ Hadd]].
  rewrite Hadd. cbn [fst].
  set (created := mkRow (seq db + 1) lv sv pv dv).
  set (db' := mkStore (rows db ++ [created]) (seq db + 1)).
  assert (has_id (seq db + 1) db') as Hid.
  { exists created. split; [|reflexivity]. simpl. apply in_or_app. right. now left. }
  apply ById.select_some in Hid. destruct Hid as [r Hr].
  unfold delete_filter_record. rewrite Hb, Hr. f_equal. f_equal.
  cbn [rows db']. rewrite filter_app. cbn [filter].
  assert (Sql.id_is (seq db + 1) created = true) as ->
    by (now apply ById.id_is_true).
  cbn [negb]. rewrite app_nil_r.
  apply Lookup.filter_everything. intros x Hx.
  apply negb_true_iff. now apply Lookup.next_id_is_free.
Qed.

Lemma create_then_delete_restores_rows_witness :
  well_formed Runs.kitchen2 /\ seq Runs.kitchen2 < Sql.max_rowid /\
  delete_filter_record 3
    (fst (add_filter_change Runs.jan1 (Some "Attic") (Some "16x25") (Some "XYZ")
                            None Runs.kitchen2)) =
  (mkStore (rows Runs.kitchen2) 3, Printed (Deleted 3)).
Proof.
  assert (well_formed Runs.kitchen2) as Hwf
    by (apply Ids.reachable_well_formed; eexists; reflexivity).
  assert (seq Runs.kitchen2 < Sql.max_rowid) as Hseq by reflexivity.
  split; [exact Hwf|]. split; [exact Hseq|].
  exact (create_then_delete_restores_rows Runs.jan1 "Attic" "16x25" "XYZ" None
           Runs.kitchen2 Hwf Hseq).
Defined.

(** ** What check reports *)

Module CheckMore.

Lemma location_is_false (l : Py.arg) (r : row) :
  Sql.location_is l r = false <-> l <> Some (location r).
Proof.
  unfold Sql.location_is. destruct l as [s|].
  - rewrite String.eqb_neq. split; congruence.
  - split; [discriminate|reflexivity].
Qed.

Lemma row_none (l : Py.arg) (db : store) :
  last_filter_change_row l db = None <->
  forall r, In r (rows db) -> l <> Some (location r).
Proof.
  unfold last_filter_change_row. rewrite OrderBy.fetchone_none. split.
  - intros H r Hr. apply location_is_false.
    destruct (Sql.location_is l r) eqn:E; [|reflexivity].
    assert (In r (filter (Sql.location_is l) (rows db))) as Hin
      by (apply filter_In; auto).
    rewrite H in Hin. contradiction.
  - intros H. apply Lookup.filter_nothing. intros r Hr.
    now apply location_is_false, H.
Qed.

(** What is reported for a location that has a record. *)
Lemma reported (l : string) (db : store) :
  has_location l db ->
  exists r,
    last_filter_change_row (Some l) db = Some r /\
    check_last_filter_change (Some l) db =
      LastChanged (Some l) (change_date r) (product_number r) /\
    In r (rows db) /\ location r = l /\
    forall r', In r' (rows db) -> location r' = l ->
               text_le (change_date r') (change_date r).
Proof.
  intros H. destruct (FindLatest.found l db H) as [r Hr].
  exists r. split; [exact Hr|].
  split; [unfold check_last_filter_change; now rewrite Hr|].
  now apply FindLatest.found_is_max.
Qed.

End CheckMore.

(** X9. [check_last_filter_change] prints "no record found" exactly when
    no row of the table has the given location; for a location that is
    [None] that is always so. *)
Theorem check_last_not_found_iff (l : Py.arg) (db : store) :
  check_last_filter_change l db = NoRecordForLocation l <->
  forall r, In r (rows db) -> l <> Some (location r).
Proof.
  rewrite <- CheckMore.row_none. unfold check_last_filter_change.
  destruct (last_filter_change_row l db); simpl; split; congruence.
Qed.

(** X10. For a location that has a record, [check_last_filter_change]
    reports the change_date and product_number of one record of that
    location, and no record of that location has a later change_date. *)
Theorem check_last_reports_greatest_date (l : string) (db : store) :
  has_location l db ->
  exists r,
    In r (rows db) /\ location r = l /\
    check_last_filter_change (Some l) db =
      LastChanged (Some l) (change_date r) (product_number r) /\
    forall r', In r' (rows db) -> location r' = l ->
               text_le (change_date r') (change_date r).
Proof.
  intros H. destruct (CheckMore.reported l db H) as [r [_ [Hmsg [Hin [Hl Hmax]]]]].
  exists r. auto.
Qed.

Lemma check_last_reports_greatest_date_witness :
  has_location "Kitchen" Runs.postdated /\
  exists r,
    In r (rows Runs.postdated) /\
    check_last_filter_change (Some "Kitchen") Runs.postdated =
      LastChanged (Some "Kitchen") (change_date r) (product_number r).
Proof.
  assert (has_location "Kitchen" Runs.postdated) as H
    by (eexists; split; [left; reflexivity|reflexivity]).
  split; [exact H|].
  destruct (check_last_reports_greatest_date "Kitchen" Runs.postdated H)
    as [r [Hin [_ [Hmsg _]]]].
  exists r. split; [exact Hin|exact Hmsg].
Defined.

(** ** The first row of an ordered result, one row later *)

Module OrderByMore.

Section Snoc.
Context {A : Type}.
Variable cmp : A -> A -> comparison.
Hypothesis cmp_antisym : forall x y, cmp x y = CompOpp (cmp y x).
Hypothesis cmp_trans :
  forall x y z, precedes cmp x y -> precedes cmp y z -> precedes cmp x z.

Lemma fetchone_place (x : A) (l : list A) :
  Sql.fetchone (Sql.place cmp x l) =
  Some match Sql.fetchone l with
       | None => x
       | Some h => if Sql.before cmp x h then x else h
       end.
Proof.
  destruct l as [|h rest]; simpl; [reflexivity|].
  unfold Sql.fetchone. simpl. now destruct (Sql.before cmp x h).
Qed.

(** A row scanned last either leaves the first row of the result as it
    was, or becomes the first row, and then it comes strictly before
    every other row. *)
Lemma fetchone_snoc_cases (l : list A) (x : A) :
  Sql.fetchone (Sql.order_by cmp (l ++ [x])) = Sql.fetchone (Sql.order_by cmp l) \/
  (Sql.fetchone (Sql.order_by cmp (l ++ [x])) = Some x /\
   forall y, In y l -> cmp x y = Lt).
Proof.
  induction l as [|a l IH]; [right; split; [reflexivity|intros y []]|].
  change ((a :: l) ++ [x]) with (a :: (l ++ [x])).
  cbn [Sql.order_by]. rewrite !fetchone_place.
  destruct IH as [->|[Hx Hall]]; [now left|].
  rewrite Hx. destruct (Sql.before cmp a x) eqn:E.
  - left. f_equal.
    destruct (Sql.fetchone (Sql.order_by cmp l)) as [h|] eqn:Eh; [|reflexivity].
    apply (OrderBy.fetchone_least cmp cmp_antisym cmp_trans) in Eh.
    destruct Eh as [Hh _].
    assert (precedes cmp a h) as Hah.
    { apply cmp_trans with x; [now apply OrderBy.before_le|].
      unfold precedes. rewrite (Hall h Hh). discriminate. }
    apply OrderBy.before_le in Hah. now rewrite Hah.
  - right. split; [reflexivity|].
    intros y [<-|Hy]; [|now apply Hall].
    unfold Sql.before in E. rewrite cmp_antisym.
    destruct (cmp a x); simpl; congruence.
Qed.

(** A row scanned last that comes strictly after some other row does not
    change the first row of the result. *)
Lemma fetchone_snoc_later (l : list A) (x : A) :
  (exists y, In y l /\ cmp y x = Lt) ->
  Sql.fetchone (Sql.order_by cmp (l ++ [x])) = Sql.fetchone (Sql.order_by cmp l).
Proof.
  intros [y [Hy Hlt]].
  destruct (fetchone_snoc_cases l x) as [H|[_ Hall]]; [exact H|].
  specialize (Hall y Hy). rewrite cmp_antisym, Hlt in Hall. discriminate.
Qed.

End Snoc.

End OrderByMore.

(** ** LatestPerLocation and check *)

Module LatestMore.

(** The records behind the per-location report. *)
Lemma records (db : store) :
  exists recs,
    last_change_lines (rows db) (Sql.select_location_max_date (rows db)) =
      (map line_of recs, None) /\
    export_last_results db = map Some recs /\
    map location recs = map fst (Sql.select_location_max_date (rows db)) /\
    Forall (latest_of db) recs.
Proof.
  destruct (Groups.select_correct (rows db)) as [Hs [Hk He]].
  destruct (Latest.loops (rows db) (Sql.select_location_max_date (rows db)))
    as [recs [Hmap [Hlines Hall]]].
  { intros k v Hin. now apply He. }
  exists recs. split; [exact Hlines|]. split; [exact Hmap|].
  split; [exact (Latest.picked_locations _ _ _ Hall)|].
  apply Forall_forall. intros r Hr.
  destruct (Latest.picked_from _ _ _ _ Hall Hr) as [[k v] [Hin [Hrin [Hl [Hd Hid]]]]].
  simpl in Hl, Hd. destruct (He k v Hin) as [_ Hmax].
  unfold latest_of. split; [exact Hrin|]. split.
  - intros r' Hr' Hl'. rewrite Hd. apply Hmax; congruence.
  - intros r' Hr' Hl' Hd'. apply Hid; simpl; congruence.
Qed.

(** The lines that are printed are the lines of those records. *)
Lemma printed_lines (db : store) (lines : list (string * string * string)) :
  fst (print_last_change_per_location db) = LastChanges lines ->
  exists recs, lines = map line_of recs /\ Forall (latest_of db) recs.
Proof.
  destruct (records db) as [recs [Hlines [_ [_ Hlatest]]]].
  unfold print_last_change_per_location.
  destruct (Sql.select_location_max_date (rows db)) as [|g gs];
    [discriminate|].
  rewrite Hlines. simpl. intros [= <-]. now exists recs.
Qed.

End LatestMore.

(** X11. The two "latest" reports agree on the date: for every line
    (location, date, product) that [print_last_change_per_location]
    prints, [check_last_filter_change] for that location reports the
    same date; it reports the same product as well when only one record
    of the location carries that date. *)
Theorem check_agrees_with_last_changes
    (db : store) (lines : list (string * string * string)) (l d p' : string) :
  fst (print_last_change_per_location db) = LastChanges lines ->
  In (l, d, p') lines ->
  exists p,
    check_last_filter_change (Some l) db = LastChanged (Some l) d p /\
    ((forall r r', In r (rows db) -> In r' (rows db) ->
                   location r = l -> location r' = l ->
                   change_date r = d -> change_date r' = d -> r = r') ->
     p = p').
Proof.
  intros Hprint Hin.
  destruct (LatestMore.printed_lines db lines Hprint) as [recs [-> Hlatest]].
  apply in_map_iff in Hin. destruct Hin as [r [Hline Hr]].
  rewrite Forall_forall in Hlatest. destruct (Hlatest r Hr) as [Hrin [Hmax _]].
  unfold line_of in Hline. injection Hline as Hl Hd Hp.
  assert (has_location l db) as Hloc by (exists r; auto).
  destruct (CheckMore.reported l db Hloc) as [r0 [_ [Hmsg [Hin0 [Hl0 Hmax0]]]]].
  assert (change_date r0 = d) as Hd0.
  { rewrite <- Hd. apply Text.le_antisym.
    - apply Hmax; [exact Hin0|congruence].
    - now apply Hmax0. }
  exists (product_number r0). split; [now rewrite Hmsg, Hd0|].
  intros Huniq. rewrite <- Hp. f_equal. now apply Huniq.
Qed.

Lemma check_agrees_with_last_changes_witness :
  fst (print_last_change_per_location Runs.postdated) =
    LastChanges [("Kitchen", "2099-01-01", "ABC123")] /\
  In ("Kitchen", "2099-01-01", "ABC123") [("Kitchen", "2099-01-01", "ABC123")] /\
  exists p,
    check_last_filter_change (Some "Kitchen") Runs.postdated =
      LastChanged (Some "Kitchen") "2099-01-01" p.
Proof.
  assert (fst (print_last_change_per_location Runs.postdated) =
            LastChanges [("Kitchen", "2099-01-01", "ABC123")]) as H1 by reflexivity.
  assert (In ("Kitchen", "2099-01-01", "ABC123")
             [("Kitchen", "2099-01-01", "ABC123")]) as H2 by (now left).
  split; [exact H1|]. split; [exact H2|].
  destruct (check_agrees_with_last_changes Runs.postdated _ _ _ _ H1 H2) as [p [Hp _]].
  exists p. exact Hp.
Defined.

(** ** Create and check *)

Module CreateMore.

Lemma filter_snoc_same (lv : string) (t : list row) (x : row) :
  location x = lv ->
  filter (Sql.location_is (Some lv)) (t ++ [x]) =
  filter (Sql.location_is (Some lv)) t ++ [x].
Proof.
  intros H. rewrite filter_app. cbn [filter].
  assert (Sql.location_is (Some lv) x = true) as ->
    by (now apply FindLatest.location_is_true).
  reflexivity.
Qed.

Lemma filter_snoc_other (l : Py.arg) (t : list row) (x : row) :
  l <> Some (location x) ->
  filter (Sql.location_is l) (t ++ [x]) = filter (Sql.location_is l) t.
Proof.
  intros H. rewrite filter_app. cbn [filter].
  apply CheckMore.location_is_false in H. rewrite H. apply app_nil_r.
Qed.

End CreateMore.

(** X12. A create with a date later than every date of its location
    becomes what check reports: when every record the location had is
    dated strictly before the stored date (the supplied one, or
    today's), [check_last_filter_change] for the location reports the
    stored date and the product_number of the call. *)
Theorem create_later_date_is_reported
    (now : Py.datetime) (lv sv pv : string) (d : Py.arg) (db : store) :
  seq db < Sql.max_rowid ->
  exists dv,
    stored_date now d dv /\
    ((forall r, In r (rows db) -> location r = lv -> text_lt (change_date r) dv) ->
     check_last_filter_change (Some lv)
       (fst (add_filter_change now (Some lv) (Some sv) (Some pv) d db)) =
     LastChanged (Some lv) dv pv).
Proof.
  intros Hseq.
  destruct (Lookup.inserted_date now lv sv pv d db Hseq) as [dv [Hdv Hadd]].
  exists dv. split; [exact Hdv|]. intros Hbefore. rewrite Hadd. cbn [fst].
  set (created := mkRow (seq db + 1) lv sv pv dv).
  set (db' := mkStore (rows db ++ [created]) (seq db + 1)).
  assert (has_location lv db') as Hloc.
  { exists created. split; [|reflexivity]. simpl. apply in_or_app. right. now left. }
  destruct (CheckMore.reported lv db' Hloc) as [r [_ [Hmsg [Hin [Hl Hmax]]]]].
  assert (r = created) as ->.
  { simpl in Hin. apply in_app_or in Hin. destruct Hin as [Hold|[Hnew|[]]].
    - exfalso. apply (FindLatest.lt_not_ge (change_date r) dv).
      + now apply Hbefore.
      + apply (Hmax created); [|reflexivity].
        simpl. apply in_or_app. right. now left.
    - now symmetry. }
  exact Hmsg.
Qed.

Lemma create_later_date_is_reported_witness :
  seq Runs.kitchen2 < Sql.max_rowid /\
  exists dv,
    stored_date Runs.jan1 (Some "2024-03-05") dv /\
    check_last_filter_change (Some "Kitchen")
      (fst (add_filter_change Runs.jan1 (Some "Kitchen") (Some "20x20")
                              (Some "NEW") (Some "2024-03-05") Runs.kitchen2)) =
    LastChanged (Some "Kitchen") dv "NEW".
Proof.
  assert (seq Runs.kitchen2 < Sql.max_rowid) as Hseq by reflexivity.
  split; [exact Hseq|].
  destruct (create_later_date_is_reported Runs.jan1 "Kitchen" "20x20" "NEW"
              (Some "2024-03-05") Runs.kitchen2 Hseq) as [dv [Hdv H]].
  exists dv. split; [exact Hdv|]. apply H.
  destruct Hdv as [[[= <-] _]|[[H0|H0] _]]; try discriminate.
  intros r [<-|[<-|[]]] _; reflexivity.
Defined.

(** X13. A backdated create does not disturb check: when the location
    already has a record dated strictly after the stored date, the
    report of [check_last_filter_change] is the same after the create as
    before it, for every location; and whatever the dates, the report
    for any other location is unchanged. *)
Theorem backdated_create_keeps_check
    (now : Py.datetime) (lv sv pv : string) (d : Py.arg) (db : store) :
  seq db < Sql.max_rowid ->
  exists dv,
    stored_date now d dv /\
    (forall l, l <> Some lv ->
       check_last_filter_change l
         (fst (add_filter_change now (Some lv) (Some sv) (Some pv) d db)) =
       check_last_filter_change l db) /\
    ((exists r, In r (rows db) /\ location r = lv /\ text_lt dv (change_date r)) ->
     forall l,
       check_last_filter_change l
         (fst (add_filter_change now (Some lv) (Some sv) (Some pv) d db)) =
       check_last_filter_change l db).
Proof.
  intros Hseq.
  destruct (Lookup.inserted_date now lv sv pv d db Hseq) as [dv [Hdv Hadd]].
  exists dv. split; [exact Hdv|]. rewrite Hadd. cbn [fst].
  set (created := mkRow (seq db + 1) lv sv pv dv).
  assert (forall l, l <> Some lv ->
            check_last_filter_change l (mkStore (rows db ++ [created]) (seq db + 1)) =
            check_last_filter_change l db) as Hother.
  { intros l Hl. unfold check_last_filter_change, last_filter_change_row.
    cbn [rows]. now rewrite CreateMore.filter_snoc_other. }
  split; [exact Hother|].
  intros [r [Hr [Hloc Hlater]]] l.
  destruct l as [s|]; [|apply Hother; discriminate].
  destruct (String.eqb s lv) eqn:E.
  2:{ apply Hother. apply String.eqb_neq in E. congruence. }
  apply String.eqb_eq in E. subst s.
  unfold check_last_filter_change, last_filter_change_row. cbn [rows].
  rewrite CreateMore.filter_snoc_same by reflexivity.
  rewrite (OrderByMore.fetchone_snoc_later _
             Orderings.by_change_date_desc_antisym
             Orderings.by_change_date_desc_trans); [reflexivity|].
  exists r. split.
  - apply filter_In. split; [exact Hr|now apply FindLatest.location_is_true].
  - exact Hlater.
Qed.

Lemma backdated_create_keeps_check_witness :
  seq Runs.postdated < Sql.max_rowid /\
  exists dv,
    stored_date Runs.jan1 None dv /\
    check_last_filter_change (Some "Kitchen")
      (fst (add_filter_change Runs.jan1 (Some "Kitchen") (Some "20x20")
                              (Some "NEW") None Runs.postdated)) =
    check_last_filter_change (Some "Kitchen") Runs.postdated.
Proof.
  assert (seq Runs.postdated < Sql.max_rowid) as Hseq by reflexivity.
  split; [exact Hseq|].
  destruct (backdated_create_keeps_check Runs.jan1 "Kitchen" "20x20" "NEW"
              None Runs.postdated Hseq) as [dv [Hdv [_ H]]].
  exists dv. split; [exact Hdv|]. apply H.
  destruct Hdv as [[H0 _]|[_ ->]]; [discriminate|].
  eexists. split; [left; reflexivity|]. split; reflexivity.
Defined.

(** ** The two exports *)

Module ExportMore.

Lemma ascending_records (g : list (string * string)) (recs : list row) :
  keys_ascending g -> map location recs = map fst g ->
  StronglySorted (fun a b => text_lt (location a) (location b)) recs.
Proof.
  revert g. induction recs as [|r recs IH]; intros g Hs Hmap; [constructor|].
  destruct g as [|e g]; [discriminate|].
  simpl in Hmap. injection Hmap as Hr Hrest.
  apply Groups.head_lt in Hs. destruct Hs as [Hg Hlt].
  constructor; [now apply (IH g)|].
  apply Forall_forall. intros x Hx. rewrite Hr.
  assert (In (location x) (map fst g)) as Hk
    by (rewrite <- Hrest; now apply in_map).
  apply Groups.in_keys in Hk. destruct Hk as [v Hv]. now apply (Hlt _ v).
Qed.

(** The file of [export_last_changes_to_csv], from its records. *)
Lemma last_file (db : store) :
  exists recs,
    fst (export_last_changes_to_csv db) =
      match recs with
      | [] => None
      | _ => Some (header :: map cells recs)
      end /\
    snd (export_last_changes_to_csv db) =
      match recs with
      | [] => Printed NoRecordsToExport
      | _ => Printed ExportedLast
      end /\
    Forall (latest_of db) recs /\
    StronglySorted (fun a b => text_lt (location a) (location b)) recs.
Proof.
  destruct (LatestMore.records db) as [recs [_ [Hres [Hlocs Hlatest]]]].
  exists recs.
  assert (export_last_changes_to_csv db =
            match recs with
            | [] => (None, Printed NoRecordsToExport)
            | _ => (Some (header :: map cells recs), Printed ExportedLast)
            end) as Hfile.
  { unfold export_last_changes_to_csv. rewrite Hres.
    destruct recs as [|r recs]; [reflexivity|].
    change (map Some (r :: recs)) with (Some r :: map Some recs).
    cbv beta iota.
    change (Some r :: map Some recs) with (map Some (r :: recs)).
    now rewrite Latest.writerows_all. }
  rewrite Hfile.
  split; [now destruct recs|]. split; [now destruct recs|].
  split; [exact Hlatest|].
  apply (ascending_records (Sql.select_location_max_date (rows db)));
    [apply Groups.select_correct|exact Hlocs].
Qed.

End ExportMore.

(** X14. The file of [export_last_changes_to_csv] is an extract of the
    file of [export_all_to_csv]: when the first is written, so is the
    second, and every line of the first (the header, a record) is a line
    of the second; its records come in strictly ascending order of
    location. *)
Theorem export_last_within_export_all (db : store) (file : csv) :
  fst (export_last_changes_to_csv db) = Some file ->
  exists all recs,
    fst (export_all_to_csv db) = Some all /\
    (forall line, In line file -> In line all) /\
    file = header :: map cells recs /\
    StronglySorted (fun a b => text_lt (location a) (location b)) recs.
Proof.
  destruct (ExportMore.last_file db) as [recs [Hfile [_ [Hlatest Hsorted]]]].
  rewrite Hfile. destruct recs as [|r recs]; [discriminate|].
  intros [= <-].
  assert (In r (rows db)) as Hr.
  { apply Forall_inv in Hlatest. now destruct Hlatest. }
  exists (header :: map cells (list_all_records db)), (r :: recs).
  split.
  - unfold export_all_to_csv, export_all_records, list_all_records.
    destruct (Sql.order_by Sql.by_location_asc_change_date_desc (rows db)) eqn:E;
      [|reflexivity].
    apply OrderBy.order_by_nil in E. rewrite E in Hr. contradiction.
  - split; [|split; [reflexivity|exact Hsorted]].
    intros line [<-|Hline]; [now left|]. right.
    change (In line (map cells (r :: recs))) in Hline.
    apply in_map_iff in Hline. destruct Hline as [x [<- Hx]].
    apply in_map. unfold list_all_records. apply OrderBy.order_by_in.
    rewrite Forall_forall in Hlatest. now destruct (Hlatest x Hx).
Qed.

Lemma export_last_within_export_all_witness :
  fst (export_last_changes_to_csv Runs.kitchen2) =
    Some [header; cells (mkRow 2 "Kitchen" "20x20" "ABC999" "2024-01-01")] /\
  exists all,
    fst (export_all_to_csv Runs.kitchen2) = Some all /\
    In (cells (mkRow 2 "Kitchen" "20x20" "ABC999" "2024-01-01")) all.
Proof.
  assert (fst (export_last_changes_to_csv Runs.kitchen2) =
            Some [header; cells (mkRow 2 "Kitchen" "20x20" "ABC999" "2024-01-01")])
    as H by reflexivity.
  split; [exact H|].
  destruct (export_last_within_export_all Runs.kitchen2 _ H)
    as [all [recs [Hall [Hin _]]]].
  exists all. split; [exact Hall|]. apply Hin. right. now left.
Defined.

(** ** An edit that leaves location and date alone *)

Module EditMore.

Lemma place_map {A : Type} (cmp : A -> A -> comparison) (f : A -> A)
    (x : A) (l : list A) :
  (forall a b, cmp (f a) (f b) = cmp a b) ->
  Sql.place cmp (f x) (map f l) = map f (Sql.place cmp x l).
Proof.
  intros H. induction l as [|y l IH]; simpl; [reflexivity|].
  unfold Sql.before. rewrite H.
  destruct (cmp x y); simpl; try reflexivity. now rewrite IH.
Qed.

Lemma order_by_map {A : Type} (cmp : A -> A -> comparison) (f : A -> A)
    (l : list A) :
  (forall a b, cmp (f a) (f b) = cmp a b) ->
  Sql.order_by cmp (map f l) = map f (Sql.order_by cmp l).
Proof.
  intros H. induction l as [|x l IH]; simpl; [reflexivity|].
  rewrite IH. now apply place_map.
Qed.

Lemma filter_map {A : Type} (p : A -> bool) (f : A -> A) (l : list A) :
  (forall a, p (f a) = p a) -> filter p (map f l) = map f (filter p l).
Proof.
  intros H. induction l as [|x l IH]; simpl; [reflexivity|].
  rewrite H. destruct (p x); simpl; now rewrite IH.
Qed.

Lemma edited_location (i : Z) (l s p d : Py.arg) (r : row) :
  omitted l -> location (edited i l s p d r) = location r.
Proof.
  intros H. unfold edited.
  destruct (Sql.binds i && Sql.id_is i r); [|reflexivity].
  destruct r; simpl. now apply Lookup.assign_omitted.
Qed.

Lemma edited_change_date (i : Z) (l s p d : Py.arg) (r : row) :
  omitted d -> change_date (edited i l s p d r) = change_date r.
Proof.
  intros H. unfold edited.
  destruct (Sql.binds i && Sql.id_is i r); [|reflexivity].
  destruct r; simpl. now apply Lookup.assign_omitted.
Qed.

Lemma edited_product_number (i : Z) (l s p d : Py.arg) (r : row) :
  omitted p -> product_number (edited i l s p d r) = product_number r.
Proof.
  intros H. unfold edited.
  destruct (Sql.binds i && Sql.id_is i r); [|reflexivity].
  destruct r; simpl. now apply Lookup.assign_omitted.
Qed.

End EditMore.

(** X15. An edit that supplies neither location nor change_date does not
    move a record in the listing: [list_all_filter_changes] fetches the
    records in the same order as before, the edited one in its old
    place with its new fields (and all of them as they were, when the id
    does not fit an SQLite INTEGER and the call raises).  When it
    supplies no product_number either, every report of
    [check_last_filter_change] is as before. *)
Theorem edit_keeps_listing_order (i : Z) (l s p d : Py.arg) (db : store) :
  omitted l -> omitted d ->
  list_all_records (fst (edit_filter_record i l s p d db)) =
    (if Sql.binds i
     then map (fun r => if Sql.id_is i r then set_columns l s p d r else r)
              (list_all_records db)
     else list_all_records db) /\
  (omitted p ->
   forall loc,
     check_last_filter_change loc (fst (edit_filter_record i l s p d db)) =
     check_last_filter_change loc db).
Proof.
  intros Hl Hd. split.
  - destruct (Sql.binds i) eqn:B.
    2:{ now rewrite (EditFacts.edit_unbound i l s p d db B). }
    unfold list_all_records. rewrite Lookup.rows_after_edit.
    rewrite (EditMore.order_by_map _ (edited i l s p d)).
    + apply map_ext. intros r. now apply Lookup.edited_bound.
    + intros a b. unfold Sql.by_location_asc_change_date_desc.
      now rewrite !EditMore.edited_location, !EditMore.edited_change_date.
  - intros Hp loc. unfold check_last_filter_change, last_filter_change_row.
    rewrite Lookup.rows_after_edit.
    rewrite (EditMore.filter_map _ (edited i l s p d)).
    2:{ intros a. unfold Sql.location_is.
        now rewrite EditMore.edited_location. }
    rewrite (EditMore.order_by_map _ (edited i l s p d)).
    2:{ intros a b. unfold Sql.by_change_date_desc.
        now rewrite !EditMore.edited_change_date. }
    destruct (Sql.order_by Sql.by_change_date_desc
                (filter (Sql.location_is loc) (rows db))) as [|r rest];
      [reflexivity|].
    unfold Sql.fetchone. simpl.
    now rewrite EditMore.edited_change_date, EditMore.edited_product_number.
Qed.

Lemma edit_keeps_listing_order_witness :
  omitted None /\ omitted (Some "") /\
  list_all_records
    (fst (edit_filter_record 1 None (Some "16x25") (Some "NEW") (Some "") Runs.kitchen2)) =
  map (fun r => if Sql.id_is 1 r
                then set_columns None (Some "16x25") (Some "NEW") (Some "") r
                else r)
      (list_all_records Runs.kitchen2).
Proof.
  assert (omitted None) as H1 by (now left).
  assert (omitted (Some "")) as H2 by (now right).
  split; [exact H1|]. split; [exact H2|].
  exact (proj1 (edit_keeps_listing_order 1 None (Some "16x25") (Some "NEW")
                  (Some "") Runs.kitchen2 H1 H2)).
Defined.

(** ** Runs of the program *)

Module MainFacts.

Lemma reachable_fresh : reachable (initialize_database None).
Proof. exists []. reflexivity. Qed.

Lemma reachable_step (o : op) (db : store) :
  reachable db -> reachable (run_op o db).
Proof.
  intros [ops ->]. exists (ops ++ [o]). now rewrite History.run_ops_snoc.
Qed.

Lemma reachable_change_dates (db : store) :
  reachable db -> Forall (fun r => change_date r <> "") (rows db).
Proof.
  intros [ops ->]. apply Preserved.change_date_run. constructor.
Qed.

(** What [write_csv] leaves: the table, or the CSV when the file name
    landed on the database file. *)
Lemma write_csv_file (opens : string -> target) (filename : string)
    (content : csv) (o : outcome) (db : store) :
  fst (write_csv opens filename content o db) = TableFile db \/
  (opens filename = DatabaseFile /\
   fst (write_csv opens filename content o db) = CsvFile content).
Proof.
  unfold write_csv. destruct (opens filename); auto.
Qed.

(** One run on a database file that holds a reachable table, or on no
    file: it leaves a reachable table, unless it is an export pointed at
    the database file.  On a file that holds CSV every run leaves it. *)
Lemma main_keeps (now : Py.datetime) (opens : string -> target)
    (args : option command) (f : dbfile) :
  match f with TableFile db => reachable db | _ => True end ->
  match fst (main now opens args f) with
  | NoFile => False
  | TableFile db' => reachable db'
  | CsvFile _ =>
      (exists c, f = CsvFile c) \/ exports_over_database (now, opens, args)
  end.
Proof.
  intros Hf.
  destruct f as [|db0|c]; [| |simpl; left; now exists c].
  all: unfold main;
    match goal with
    | |- context [initialize_database ?x] =>
        assert (reachable (initialize_database x)) as Hinit
          by (simpl; first [exact Hf | apply reachable_fresh]);
        generalize dependent (initialize_database x)
    end;
    intros db Hinit;
    destruct args as [[l s p d|l| | |i|i l s p d|filename|filename|]|];
    try exact Hinit.
  all: try (match goal with
            | |- context [add_filter_change ?n ?a ?b ?c ?e ?x] =>
                pose proof (reachable_step (Create n a b c e) x Hinit) as Hstep;
                simpl in Hstep;
                destruct (add_filter_change n a b c e x); exact Hstep
            | |- context [delete_filter_record ?j ?x] =>
                pose proof (reachable_step (Delete j) x Hinit) as Hstep;
                simpl in Hstep;
                destruct (delete_filter_record j x); exact Hstep
            | |- context [edit_filter_record ?j ?a ?b ?c ?e ?x] =>
                pose proof (reachable_step (Update j a b c e) x Hinit) as Hstep;
                simpl in Hstep;
                destruct (edit_filter_record j a b c e x); exact Hstep
            | |- context [print_last_change_per_location ?x] =>
                destruct (print_last_change_per_location x); exact Hinit
            end).
  all: match goal with
       | |- context [export_all_to_csv ?x] =>
           destruct (export_all_to_csv x) as [[content|] o]
       | |- context [export_last_changes_to_csv ?x] =>
           destruct (export_last_changes_to_csv x) as [[content|] o]
       end; try exact Hinit.
  all: match goal with
       | |- context [write_csv ?op ?fn ?ct ?oc ?x] =>
           destruct (write_csv_file op fn ct oc x) as [->|[Hopen ->]];
             [exact Hinit|]
       end.
  all: right; exists filename; simpl; auto.
Qed.

Lemma sessions_cons (r : run) (runs : list run) (f : dbfile) :
  sessions (r :: runs) f =
  sessions runs (fst (main (fst (fst r)) (snd (fst r)) (snd r) f)).
Proof. reflexivity. Qed.

Lemma sessions_keep (runs : list run) (f : dbfile) :
  match f with TableFile db => reachable db | _ => True end ->
  match sessions runs f with
  | NoFile => runs = [] /\ f = NoFile
  | TableFile db => reachable db
  | CsvFile _ =>
      (exists c, f = CsvFile c) \/
      exists r, In r runs /\ exports_over_database r
  end.
Proof.
  revert f. induction runs as [|[[now opens] args] runs IH]; intros f Hf.
  - simpl. destruct f as [|db|c]; auto. left. now exists c.
  - rewrite sessions_cons. cbn [fst snd].
    pose proof (main_keeps now opens args f Hf) as Hstep.
    assert (match fst (main now opens args f) with
            | TableFile db => reachable db
            | _ => True
            end) as Hgood
      by (destruct (fst (main now opens args f)); auto).
    specialize (IH _ Hgood).
    destruct (sessions runs (fst (main now opens args f))) as [|db|c].
    + destruct IH as [_ IH]. rewrite IH in Hstep. contradiction.
    + exact IH.
    + destruct IH as [[c0 Hc0]|[r [Hr Hexp]]].
      * rewrite Hc0 in Hstep. destruct Hstep as [Hcsv|Hexp]; [now left|].
        right. exists (now, opens, args). split; [now left|exact Hexp].
      * right. exists r. split; [now right|exact Hexp].
Qed.

End MainFacts.

(** X16. Whatever command lines the program is run with, one run after
    the other on a database file that did not exist, the file ends up
    holding a table that creates, updates and deletes bring a fresh
    database to (ids distinct, ascending and within the counter, no
    record with an empty change_date), unless one of the runs was an
    export whose file name landed on the database file, in which case
    the file may hold the CSV instead.  Only without any run is there no
    file. *)
Theorem sessions_keep_table_well_formed (runs : list run) :
  match sessions runs NoFile with
  | NoFile => runs = []
  | TableFile db =>
      reachable db /\ well_formed db /\
      Forall (fun r => change_date r <> "") (rows db)
  | CsvFile _ => exists r, In r runs /\ exports_over_database r
  end.
Proof.
  pose proof (MainFacts.sessions_keep runs NoFile I) as H.
  destruct (sessions runs NoFile) as [|db|c].
  - now destruct H.
  - split; [exact H|]. split.
    + now apply Ids.reachable_well_formed.
    + now apply MainFacts.reachable_change_dates.
  - destruct H as [[c0 H]|H]; [discriminate|exact H].
Qed.

(** X17. Through the command line an add always stores its record while
    a rowid is left: the required options are strings, so the NOT NULL
    check cannot fail.  On a database file that holds a table or does
    not exist, the run appends one row with the next id, the given
    location, size and product_number and the stored date, prints that
    it was recorded, and raises nothing; on a file that did not exist
    the row gets id 1. *)
Theorem main_add_records
    (now : Py.datetime) (opens : string -> target) (l s p : string)
    (d : Py.arg) (db0 : option store) :
  seq (initialize_database db0) < Sql.max_rowid ->
  exists dv,
    stored_date now d dv /\
    main now opens (Some (CmdAdd l s p d)) (file_of db0) =
      (TableFile
         (mkStore (rows (initialize_database db0) ++
                     [mkRow (seq (initialize_database db0) + 1) l s p dv])
                  (seq (initialize_database db0) + 1)),
       mkReport (Some (Recorded l dv)) None None).
Proof.
  intros Hseq.
  destruct (Lookup.inserted_date now l s p d (initialize_database db0) Hseq)
    as [dv [Hdv Hadd]].
  exists dv. split; [exact Hdv|].
  destruct db0 as [db|]; unfold main; cbn [file_of table_of]; now rewrite Hadd.
Qed.

Lemma main_add_records_witness :
  seq (initialize_database None) < Sql.max_rowid /\
  exists dv,
    main Runs.jan1 (fun _ => OtherFile)
         (Some (CmdAdd "Kitchen" "20x20" "ABC123" None)) NoFile =
      (TableFile (mkStore [mkRow 1 "Kitchen" "20x20" "ABC123" dv] 1),
       mkReport (Some (Recorded "Kitchen" dv)) None None).
Proof.
  assert (seq (initialize_database None) < Sql.max_rowid) as H by reflexivity.
  split; [exact H|].
  destruct (main_add_records Runs.jan1 (fun _ => OtherFile)
              "Kitchen" "20x20" "ABC123" None None H)
    as [dv [_ Hmain]].
  exists dv. exact Hmain.
Defined.

(** ** The ids of a reachable table fit *)

Module IdRange.

Lemma counter_step (o : op) (db : store) :
  seq db <= Sql.max_rowid -> seq (run_op o db) <= Sql.max_rowid.
Proof.
  intros H. destruct o as [now l s p d|i l s p d|i]; simpl.
  - destruct (CreateFacts.effect now l s p d db)
      as [->|[lv [sv [pv [dv [_ [_ [_ [_ [Hseq ->]]]]]]]]]]; simpl; lia.
  - unfold edit_filter_record.
    destruct (Sql.binds i); [|exact H].
    destruct (select_by_id i db); [|exact H].
    now destruct (any_update l s p d).
  - now rewrite DeleteMore.seq_after_delete.
Qed.

Lemma reachable_counter (db : store) : reachable db -> seq db <= Sql.max_rowid.
Proof.
  intros [ops ->].
  induction ops as [|o ops IH] using rev_ind; [discriminate|].
  rewrite History.run_ops_snoc. now apply counter_step.
Qed.

(** In a reachable table, an id that a record has is an id the binding
    accepts. *)
Lemma reachable_binds (db : store) (i : Z) :
  reachable db -> has_id i db -> Sql.binds i = true.
Proof.
  intros Hr [r [Hin <-]].
  pose proof (reachable_counter db Hr) as Hmax.
  destruct (Ids.reachable_well_formed db Hr) as [_ [Hb _]].
  rewrite Forall_forall in Hb. apply Hb in Hin.
  unfold Sql.binds. apply andb_true_iff.
  split; apply Z.leb_le; unfold Sql.min_integer, Sql.max_rowid in *; lia.
Qed.

End IdRange.
